(** * fortuna_archetype_client: request signing and authenticated transport

    A shallow embedding of [fortuna_archetype_client/client.py] and
    [fortuna_archetype_client/exceptions.py], with the pieces of the Python
    runtime the client calls ([str] methods, [json.dumps], [hmac],
    [hashlib.sha256]) written out as executable functions. *)

From Stdlib Require Import NArith ZArith String Ascii Bool Lia List.
From Stdlib Require Import Permutation DecimalString.
Import ListNotations.

Local Open Scope N_scope.

(** ** Python [str] and [bytes] *)

Module Py.

(** A [str] is a sequence of Unicode code points, a [bytes] a sequence of
    octets (naturals below 256). *)
Definition str := list N.
Definition bytes := list N.

(** The [str] written by an ASCII literal. *)
Definition lit (s : string) : str := map N_of_ascii (list_ascii_of_string s).

(** [sep.join(parts)] *)
Fixpoint join (sep : str) (parts : list str) : str :=
  match parts with
  | [] => []
  | [p] => p
  | p :: rest => p ++ sep ++ join sep rest
  end.

(** [s.rstrip(c)] for a one-character argument: every trailing [c] goes. *)
Fixpoint rstrip (c : N) (s : str) : str :=
  match s with
  | [] => []
  | x :: rest =>
      match rstrip c rest with
      | [] => if x =? c then [] else [x]
      | kept => x :: kept
      end
  end.

(** [str(n)] and [repr(n)] of an [int]. *)
Definition str_of_int (n : Z) : str := lit (NilZero.string_of_int (Z.to_int n)).

(** [s < t] on [str]: lexicographic on code points, a proper prefix first. *)
Fixpoint str_ltb (s t : str) : bool :=
  match s, t with
  | _, [] => false
  | [], _ :: _ => true
  | x :: s', y :: t' => (x <? y) || ((x =? y) && str_ltb s' t')
  end.

Definition str_leb (s t : str) : bool := negb (str_ltb t s).

(** One code point under [str.upper]: ASCII letters are shifted, any other
    ASCII character is kept, and a code point outside ASCII is looked up in
    the Unicode case table [tbl] (which may give several code points). *)
Definition upper_char (tbl : N -> list N) (c : N) : list N :=
  if c <? 128 then
    if (97 <=? c) && (c <=? 122) then [c - 32] else [c]
  else tbl c.

(** [s.upper()] *)
Definition upper (tbl : N -> list N) (s : str) : str :=
  flat_map (upper_char tbl) s.

(** A case table that changes nothing, enough for ASCII text. *)
Definition no_case : N -> list N := fun c => [c].

(** UTF-8 of one code point; surrogates (and anything past U+10FFFF, which
    no [str] holds) have none. *)
Definition utf8_char (c : N) : option bytes :=
  if c <? 0x80 then Some [c]
  else if c <? 0x800 then
    Some [0xC0 + N.shiftr c 6; 0x80 + N.land c 0x3F]
  else if (0xD800 <=? c) && (c <=? 0xDFFF) then None
  else if c <? 0x10000 then
    Some [0xE0 + N.shiftr c 12;
          0x80 + N.land (N.shiftr c 6) 0x3F;
          0x80 + N.land c 0x3F]
  else if c <? 0x110000 then
    Some [0xF0 + N.shiftr c 18;
          0x80 + N.land (N.shiftr c 12) 0x3F;
          0x80 + N.land (N.shiftr c 6) 0x3F;
          0x80 + N.land c 0x3F]
  else None.

(** [s.encode("utf-8")]; [None] stands for [UnicodeEncodeError]. *)
Fixpoint encode_utf8 (s : str) : option bytes :=
  match s with
  | [] => Some []
  | c :: rest =>
      match utf8_char c, encode_utf8 rest with
      | Some b, Some bs => Some (b ++ bs)
      | _, _ => None
      end
  end.


(** The four forms of a UTF-8 sequence, with the code point they carry. *)
Inductive utf8_shape (c : N) : bytes -> Prop :=
| Shape1 : c < 0x80 -> utf8_shape c [c]
| Shape2 q0 r0 :
    c = 64 * q0 + r0 -> r0 < 64 -> q0 < 32 ->
    utf8_shape c [0xC0 + q0; 0x80 + r0]
| Shape3 q1 r1 r0 :
    c = 64 * (64 * q1 + r1) + r0 -> r0 < 64 -> r1 < 64 -> q1 < 16 ->
    utf8_shape c [0xE0 + q1; 0x80 + r1; 0x80 + r0]
| Shape4 q2 r2 r1 r0 :
    c = 64 * (64 * (64 * q2 + r2) + r1) + r0 ->
    r0 < 64 -> r1 < 64 -> r2 < 64 -> q2 < 8 ->
    utf8_shape c [0xF0 + q2; 0x80 + r2; 0x80 + r1; 0x80 + r0].

End Py.

(** ** [hashlib.sha256] (FIPS 180-4) *)

Module Sha256.

Definition mask32 (x : N) : N := x mod 2 ^ 32.
Definition add32 (x y : N) : N := mask32 (x + y).
Definition rotr (n x : N) : N :=
  N.lor (N.shiftr x n) (mask32 (N.shiftl x (32 - n))).
Definition not32 (x : N) : N := N.lxor x 0xFFFFFFFF.

Definition ch (x y z : N) : N := N.lxor (N.land x y) (N.land (not32 x) z).
Definition maj (x y z : N) : N :=
  N.lxor (N.lxor (N.land x y) (N.land x z)) (N.land y z).
Definition bsig0 (x : N) : N := N.lxor (N.lxor (rotr 2 x) (rotr 13 x)) (rotr 22 x).
Definition bsig1 (x : N) : N := N.lxor (N.lxor (rotr 6 x) (rotr 11 x)) (rotr 25 x).
Definition ssig0 (x : N) : N := N.lxor (N.lxor (rotr 7 x) (rotr 18 x)) (N.shiftr x 3).
Definition ssig1 (x : N) : N := N.lxor (N.lxor (rotr 17 x) (rotr 19 x)) (N.shiftr x 10).

(** The first sixty-four primes. *)
Definition primes : list N :=
  [2; 3; 5; 7; 11; 13; 17; 19; 23; 29; 31; 37; 41; 43; 47; 53;
   59; 61; 67; 71; 73; 79; 83; 89; 97; 101; 103; 107; 109; 113; 127; 131;
   137; 139; 149; 151; 157; 163; 167; 173; 179; 181; 191; 193; 197; 199; 211; 223;
   227; 229; 233; 239; 241; 251; 257; 263; 269; 271; 277; 281; 283; 293; 307; 311].

(** The integer cube root of [n], by bisection between [lo] and [hi]. *)
Fixpoint cube_root (fuel : nat) (lo hi n : N) : N :=
  match fuel with
  | O => lo
  | S fuel' =>
      if hi <=? lo + 1 then lo
      else
        let mid := (lo + hi) / 2 in
        if mid * mid * mid <=? n then cube_root fuel' mid hi n
        else cube_root fuel' lo mid n
  end.

(** The round constants: the first 32 bits of the fractional part of the
    cube root of each prime. *)
Definition round_constants : list N :=
  Eval vm_compute in
    map (fun p => mask32 (cube_root 40 0 (2 ^ 35) (p * 2 ^ 96))) primes.

(** The eight chaining words. *)
Record state := State {
  ha : N; hb : N; hc : N; hd : N; he : N; hf : N; hg : N; hh : N }.

(** The initial chaining words: the first 32 bits of the fractional part of
    the square root of each of the first eight primes. *)
Definition initial : state :=
  Eval vm_compute in
    let h := fun p => mask32 (N.sqrt (p * 2 ^ 64)) in
    State (h 2) (h 3) (h 5) (h 7) (h 11) (h 13) (h 17) (h 19).

(** Padding: a 1 bit, zeros up to 56 mod 64 octets, the bit length on 64
    bits, big-endian. *)
Definition be_bytes (width : nat) (x : N) : Py.bytes :=
  map (fun i => N.shiftr x (8 * N.of_nat i) mod 256) (rev (seq 0 width)).

Definition pad (msg : Py.bytes) : Py.bytes :=
  let len := N.of_nat (length msg) in
  let zeros := N.to_nat ((119 - len mod 64) mod 64) in
  msg ++ 0x80 :: repeat 0 zeros ++ be_bytes 8 (8 * len).

(** Four octets to one big-endian word, sixteen words to a block. *)
Fixpoint words (fuel : nat) (bs : Py.bytes) : list N :=
  match fuel, bs with
  | S fuel', b0 :: b1 :: b2 :: b3 :: rest =>
      (N.shiftl b0 24 + N.shiftl b1 16 + N.shiftl b2 8 + b3) :: words fuel' rest
  | _, _ => []
  end.

Fixpoint blocks (fuel : nat) (ws : list N) : list (list N) :=
  match fuel, ws with
  | S fuel', _ :: _ => firstn 16 ws :: blocks fuel' (skipn 16 ws)
  | _, _ => []
  end.

(** The message schedule: [n] more words after the ones in [w]. *)
Fixpoint schedule (n : nat) (w : list N) : list N :=
  match n with
  | O => w
  | S n' =>
      let t := length w in
      let x := add32 (add32 (ssig1 (nth (t - 2) w 0)) (nth (t - 7) w 0))
                     (add32 (ssig0 (nth (t - 15) w 0)) (nth (t - 16) w 0)) in
      schedule n' (w ++ [x])
  end.

Definition round (s : state) (kw : N * N) : state :=
  let (k, w) := kw in
  let t1 := add32 (add32 (add32 (add32 (hh s) (bsig1 (he s)))
                                (ch (he s) (hf s) (hg s))) k) w in
  let t2 := add32 (bsig0 (ha s)) (maj (ha s) (hb s) (hc s)) in
  State (add32 t1 t2) (ha s) (hb s) (hc s) (add32 (hd s) t1) (he s) (hf s) (hg s).

Definition compress (s : state) (block : list N) : state :=
  let r := fold_left round (combine round_constants (schedule 48 block)) s in
  State (add32 (ha s) (ha r)) (add32 (hb s) (hb r))
        (add32 (hc s) (hc r)) (add32 (hd s) (hd r))
        (add32 (he s) (he r)) (add32 (hf s) (hf r))
        (add32 (hg s) (hg r)) (add32 (hh s) (hh r)).

Definition state_bytes (s : state) : Py.bytes :=
  be_bytes 4 (ha s) ++ be_bytes 4 (hb s) ++ be_bytes 4 (hc s) ++
  be_bytes 4 (hd s) ++ be_bytes 4 (he s) ++ be_bytes 4 (hf s) ++
  be_bytes 4 (hg s) ++ be_bytes 4 (hh s).

(** [hashlib.sha256(msg).digest()] *)
Definition digest (msg : Py.bytes) : Py.bytes :=
  let p := pad msg in
  let ws := words (length p) p in
  state_bytes (fold_left compress (blocks (length ws) ws) initial).

End Sha256.

(** ** [hmac] (RFC 2104) over SHA-256 *)

Module Hmac.

Definition block_size : nat := 64.

(** A key longer than a block is hashed; the key is then zero-padded to a
    block. *)
Definition block_key (key : Py.bytes) : Py.bytes :=
  let k := if (block_size <? length key)%nat then Sha256.digest key else key in
  k ++ repeat 0 (block_size - length k).

Definition xor_with (c : N) (bs : Py.bytes) : Py.bytes := map (N.lxor c) bs.

(** [hmac.new(key, msg, hashlib.sha256).digest()] *)
Definition digest (key msg : Py.bytes) : Py.bytes :=
  let k := block_key key in
  Sha256.digest (xor_with 0x5c k ++ Sha256.digest (xor_with 0x36 k ++ msg)).

Definition hex_digit (d : N) : N :=
  nth (N.to_nat d) (Py.lit "0123456789abcdef") 48.

(** [bytes.hex()]: two lowercase digits per octet. *)
Definition hex (bs : Py.bytes) : Py.str :=
  flat_map (fun b => [hex_digit (b / 16 mod 16); hex_digit (b mod 16)]) bs.

(** A lowercase hexadecimal digit. *)
Definition lower_hex (c : N) : bool :=
  ((48 <=? c) && (c <=? 57)) || ((97 <=? c) && (c <=? 102)).

(** [hmac.new(key, msg, hashlib.sha256).hexdigest()] *)
Definition hexdigest (key msg : Py.bytes) : Py.str := hex (digest key msg).

End Hmac.

(** ** [json.dumps] *)

Module Json.

(** The Python values a JSON document holds: [None], [bool], [int], [str],
    [list], and [dict] with [str] keys, the members in insertion order.
    Floats are left out. *)
#[warnings="-register-all"]
Inductive value :=
| Null
| Bool (b : bool)
| Int (n : Z)
| Str (s : Py.str)
| Arr (items : list value)
| Obj (members : list (Py.str * value)).

Definition dict := list (Py.str * value).

(** [d.get(key, default)] *)
Fixpoint get (d : dict) (key : Py.str) (default : value) : value :=
  match d with
  | [] => default
  | (k, v) :: rest => if list_eq_dec N.eq_dec k key then v else get rest key default
  end.

(** [key in d] *)
Definition has_key (d : dict) (key : Py.str) : bool :=
  existsb (fun kv => if list_eq_dec N.eq_dec (fst kv) key then true else false) d.

(** Four lowercase hexadecimal digits, as ['{0:04x}'.format(n)] for
    [n < 0x10000]. *)
Definition hex4 (n : N) : Py.str :=
  [Hmac.hex_digit (n / 4096 mod 16); Hmac.hex_digit (n / 256 mod 16);
   Hmac.hex_digit (n / 16 mod 16); Hmac.hex_digit (n mod 16)].

Definition u_escape (n : N) : Py.str := Py.lit "\u" ++ hex4 n.

(** One code point under [ensure_ascii=True]. *)
Definition escape_char (c : N) : Py.str :=
  if c =? 34 then [92; 34]
  else if c =? 92 then Py.lit "\\"
  else if c =? 10 then Py.lit "\n"
  else if c =? 13 then Py.lit "\r"
  else if c =? 9 then Py.lit "\t"
  else if c =? 12 then Py.lit "\f"
  else if c =? 8 then Py.lit "\b"
  else if (32 <=? c) && (c <=? 126) then [c]
  else if c <? 0x10000 then u_escape c
  else
    let n := c - 0x10000 in
    u_escape (N.lor 0xd800 (N.land (N.shiftr n 10) 0x3ff)) ++
    u_escape (N.lor 0xdc00 (N.land n 0x3ff)).

(** [json.encoder.py_encode_basestring_ascii] *)
Definition encode_basestring_ascii (s : Py.str) : Py.str :=
  34 :: flat_map escape_char s ++ [34].

(** [sorted(items)] on the items of a [dict]: the keys are distinct, so the
    order of the pairs is the order of their keys. *)
Fixpoint insert_item {A : Type} (kv : Py.str * A) (l : list (Py.str * A))
  : list (Py.str * A) :=
  match l with
  | [] => [kv]
  | x :: rest =>
      if Py.str_leb (fst kv) (fst x) then kv :: l else x :: insert_item kv rest
  end.

Definition sort_items {A : Type} (l : list (Py.str * A)) : list (Py.str * A) :=
  fold_right insert_item [] l.

Definition item_separator : Py.str := Py.lit ", ".
Definition key_separator : Py.str := Py.lit ": ".

Definition render_item (kr : Py.str * Py.str) : Py.str :=
  encode_basestring_ascii (fst kr) ++ key_separator ++ snd kr.

(** [json.dumps(v, sort_keys=sort_keys)], every other option at its
    default.  The members of a [dict] are rendered and then put in order,
    which is the encoder's order-then-render since the order looks at keys
    alone (see [dumps_obj]). *)
Fixpoint dumps (sort_keys : bool) (v : value) : Py.str :=
  match v with
  | Null => Py.lit "null"
  | Bool true => Py.lit "true"
  | Bool false => Py.lit "false"
  | Int n => Py.str_of_int n
  | Str s => encode_basestring_ascii s
  | Arr items =>
      Py.lit "[" ++ Py.join item_separator (map (dumps sort_keys) items) ++ Py.lit "]"
  | Obj members =>
      let rendered :=
        map (fun kv => match kv with (k, x) => (k, dumps sort_keys x) end) members in
      let ordered := if sort_keys then sort_items rendered else rendered in
      Py.lit "{" ++ Py.join item_separator (map render_item ordered) ++ Py.lit "}"
  end.

(** The keys of every [dict] inside [v] are distinct, as in any Python
    [dict]. *)
Fixpoint distinct_keys (keys : list Py.str) : bool :=
  match keys with
  | [] => true
  | k :: rest =>
      negb (existsb (fun k' => if list_eq_dec N.eq_dec k k' then true else false) rest)
      && distinct_keys rest
  end.

Fixpoint well_formed (v : value) : bool :=
  match v with
  | Arr items => forallb well_formed items
  | Obj members =>
      distinct_keys (map fst members)
      && forallb (fun kv => well_formed (snd kv)) members
  | _ => true
  end.

(** Two values that are the same data: lists agree item by item, dicts
    agree up to the order of their members, at every depth. *)
#[warnings="-register-all"]
Inductive same_mapping : value -> value -> Prop :=
| SameNull : same_mapping Null Null
| SameBool b : same_mapping (Bool b) (Bool b)
| SameInt n : same_mapping (Int n) (Int n)
| SameStr s : same_mapping (Str s) (Str s)
| SameArr items1 items2 :
    Forall2 same_mapping items1 items2 ->
    same_mapping (Arr items1) (Arr items2)
| SameObj members1 members2 reordered :
    Permutation members2 reordered ->
    Forall2 (fun kv1 kv2 => fst kv1 = fst kv2 /\ same_mapping (snd kv1) (snd kv2))
            members1 reordered ->
    same_mapping (Obj members1) (Obj members2).

(** [dumps] with sorted keys does not tell [a] from any [b] that is the same
    data. *)
Definition order_independent (a : value) : Prop :=
  forall b, same_mapping a b -> well_formed a = true ->
  dumps true a = dumps true b.

(** The keys of every [dict] inside [v] are already in ascending order. *)
Fixpoint keys_ascending (keys : list Py.str) : bool :=
  match keys with
  | k1 :: rest =>
      match rest with
      | k2 :: _ => Py.str_leb k1 k2
      | [] => true
      end && keys_ascending rest
  | [] => true
  end.

Fixpoint key_sorted (v : value) : bool :=
  match v with
  | Arr items => forallb key_sorted items
  | Obj members =>
      keys_ascending (map fst members)
      && forallb (fun kv => key_sorted (snd kv)) members
  | _ => true
  end.

(** The value a [dict] has for [key], if any. *)
Fixpoint lookup (d : dict) (key : Py.str) : option value :=
  match d with
  | [] => None
  | (k, v) :: rest => if list_eq_dec N.eq_dec k key then Some v else lookup rest key
  end.

End Json.

(** ** [exceptions.py] *)

Module Exceptions.

Inductive error_class := ClassArchetypeAPIError | ClassAuthenticationError.

(** An instance of [ArchetypeAPIError] or of its subclass: the class it was
    built from and the three attributes [__init__] sets.  [Json.Null] is
    [None]. *)
Record api_error := {
  class : error_class;
  message : Json.value;
  status_code : Z;
  error_code : Json.value }.

(** The same attributes on an instance of class [c]. *)
Definition as_class (c : error_class) (e : api_error) : api_error :=
  {| class := c; message := e.(message);
     status_code := e.(status_code); error_code := e.(error_code) |}.

(** [ArchetypeAPIError(message, status_code, error_code)] *)
Definition ArchetypeAPIError (message : Json.value) (status_code : Z)
    (error_code : Json.value) : api_error :=
  {| class := ClassArchetypeAPIError; message := message;
     status_code := status_code; error_code := error_code |}.

(** [AuthenticationError(message)]: [super().__init__(message, status_code=401)] *)
Definition AuthenticationError (message : Json.value) : api_error :=
  as_class ClassAuthenticationError (ArchetypeAPIError message 401 Json.Null).

(** What a call can raise: the client's own errors, and the two built-in
    ones its code can run into. *)
Inductive exn :=
| ApiError (e : api_error)
| UnicodeEncodeError
| AttributeError.

Inductive result (A : Type) :=
| Return (a : A)
| Raise (e : exn).
Arguments Return {A} a.
Arguments Raise {A} e.

Definition bind {A B : Type} (r : result A) (k : A -> result B) : result B :=
  match r with
  | Return a => k a
  | Raise e => Raise e
  end.

End Exceptions.

(** ** The part of [requests] the client talks to *)

Module Requests.

(** The keyword arguments of [requests.request]. *)
Record Request := {
  method : Py.str;
  url : Py.str;
  headers : list (Py.str * Py.str);
  params : option Json.dict;
  json : option Json.dict;
  timeout : Z }.

(** [response.json()]: the decoded body, or the description of the
    [requests.exceptions.JSONDecodeError] (a [RequestException]) it raises. *)
Inductive decoded :=
| Parsed (v : Json.value)
| Malformed (description : Py.str).

Record Response := {
  status_code : Z;
  content : Py.bytes;
  json_body : decoded }.

(** [requests.request(...)] returns a response or raises a
    [RequestException] [e]; [description] is [str(e)]. *)
Inductive outcome :=
| Responded (response : Response)
| Failed (description : Py.str).

(** The body [requests] puts on the wire for [json=d]:
    [complexjson.dumps(d, allow_nan=False).encode("utf-8")], nothing when
    [d] is [None]. *)
Definition wire_body (r : Request) : option Py.bytes :=
  match r.(json) with
  | Some d => Py.encode_utf8 (Json.dumps false (Json.Obj d))
  | None => None
  end.

(** [request.headers.get(name)] *)
Fixpoint header (name : Py.str) (hs : list (Py.str * Py.str)) : option Py.str :=
  match hs with
  | [] => None
  | (k, v) :: rest => if list_eq_dec N.eq_dec k name then Some v else header name rest
  end.

End Requests.

(** ** [client.py] *)

Import Exceptions.

(** What a call reads from outside: [int(time.time())] and the network. *)
Record world := {
  clock : Z;
  network : Requests.Request -> Requests.outcome }.

Record ArchetypeClient := {
  base_url : Py.str;
  api_key : Py.str;
  api_secret : Py.str;
  timeout : Z }.

(** [ArchetypeClient(base_url, api_key, api_secret, timeout)] *)
Definition __init__ (base_url api_key api_secret : Py.str) (timeout : Z)
  : ArchetypeClient :=
  {| base_url := Py.rstrip 47 base_url;
     api_key := api_key;
     api_secret := api_secret;
     timeout := timeout |}.

(** Truth value of an [Optional[str]] and of an [Optional[Dict]]. *)
Definition str_truthy (body : option Py.str) : bool :=
  match body with
  | Some (_ :: _) => true
  | _ => false
  end.

Definition dict_truthy (d : option Json.dict) : bool :=
  match d with
  | Some (_ :: _) => true
  | _ => false
  end.

Section Client.

(** The Unicode upper-case table for code points outside ASCII. *)
Variable case_table : N -> list N.

(** The message [_generate_signature] signs (lines 74 to 78). *)
Definition signing_message (method path timestamp : Py.str)
    (body : option Py.str) : Py.str :=
  let message_parts := [Py.upper case_table method; path; timestamp] in
  let message_parts :=
    match body with
    | Some b => if str_truthy body then message_parts ++ [b] else message_parts
    | None => message_parts
    end in
  Py.join (Py.lit "|") message_parts.

Definition _generate_signature (self : ArchetypeClient)
    (method path timestamp : Py.str) (body : option Py.str) : result Py.str :=
  let message := signing_message method path timestamp body in
  match Py.encode_utf8 self.(api_secret) with
  | None => Raise UnicodeEncodeError
  | Some key =>
      match Py.encode_utf8 message with
      | None => Raise UnicodeEncodeError
      | Some msg => Return (Hmac.hexdigest key msg)
      end
  end.

Definition _get_headers (self : ArchetypeClient) (now : Z)
    (method path : Py.str) (body : option Py.str)
  : result (list (Py.str * Py.str)) :=
  let timestamp := Py.str_of_int now in
  bind (_generate_signature self method path timestamp body) (fun signature =>
  Return [(Py.lit "X-API-Key", self.(api_key));
          (Py.lit "X-Timestamp", timestamp);
          (Py.lit "X-Signature", signature);
          (Py.lit "Content-Type", Py.lit "application/json");
          (Py.lit "Accept", Py.lit "application/json")]).

(** The body that is signed (lines 138 to 141). *)
Definition body_str (json_data : option Json.dict) : option Py.str :=
  match json_data with
  | Some d =>
      if dict_truthy json_data then Some (Json.dumps true (Json.Obj d)) else None
  | None => None
  end.

(** The arguments handed to [requests.request] (lines 135 to 153). *)
Definition prepare (self : ArchetypeClient) (now : Z) (method path : Py.str)
    (params json_data : option Json.dict) : result Requests.Request :=
  let url := self.(base_url) ++ path in
  bind (_get_headers self now method path (body_str json_data)) (fun headers =>
  Return {| Requests.method := method;
            Requests.url := url;
            Requests.headers := headers;
            Requests.params := params;
            Requests.json := json_data;
            Requests.timeout := self.(timeout) |}).

(** The [except requests.exceptions.RequestException] clause. *)
Definition request_failed (description : Py.str) : exn :=
  ApiError (ArchetypeAPIError (Json.Str (Py.lit "Request failed: " ++ description))
                              0 Json.Null).

(** What is done with the response (lines 155 to 169). *)
Definition handle (response : Requests.Response) : result Json.value :=
  let status := response.(Requests.status_code) in
  if (status =? 401)%Z then
    Raise (ApiError (AuthenticationError
      (Json.Str (Py.lit "Authentication failed: Invalid API key or signature"))))
  else if (400 <=? status)%Z then
    let error_data :=
      match response.(Requests.content) with
      | _ :: _ => response.(Requests.json_body)
      | [] => Requests.Parsed (Json.Obj [])
      end in
    match error_data with
    | Requests.Malformed description => Raise (request_failed description)
    | Requests.Parsed (Json.Obj error_data) =>
        let error_msg :=
          Json.get error_data (Py.lit "errmsg")
                   (Json.Str (Py.lit "API error: " ++ Py.str_of_int status)) in
        Raise (ApiError (ArchetypeAPIError error_msg status
                 (Json.get error_data (Py.lit "errorcode") Json.Null)))
    | Requests.Parsed _ => Raise AttributeError
    end
  else
    match response.(Requests.json_body) with
    | Requests.Parsed v => Return v
    | Requests.Malformed description => Raise (request_failed description)
    end.

Definition _make_request (self : ArchetypeClient) (w : world)
    (method path : Py.str) (params json_data : option Json.dict)
  : result Json.value :=
  bind (prepare self w.(clock) method path params json_data) (fun request =>
  match w.(network) request with
  | Requests.Responded response => handle response
  | Requests.Failed description => Raise (request_failed description)
  end).

(** [get_strategy_archetypes] and [get_archetype] *)
Definition get_strategy_archetypes (self : ArchetypeClient) (w : world)
    (sid : Py.str) : result Json.value :=
  let path := Py.lit "/internal/archetype/strategy/" ++ sid in
  _make_request self w (Py.lit "GET") path None None.

Definition get_archetype (self : ArchetypeClient) (w : world)
    (archepid : Py.str) : result Json.value :=
  let path := Py.lit "/internal/archetype/" ++ archepid in
  _make_request self w (Py.lit "GET") path None None.

(** *** The specification's wording, for comparison *)

(** A body that is present and not the empty string. *)
Definition nonempty_body (body : option Py.str) : option Py.str :=
  match body with
  | Some [] => None
  | _ => body
  end.

(** The signature as the specification words it: the hexadecimal
    HMAC-SHA256, keyed by the UTF-8 secret, of the UTF-8 of
    [METHOD|PATH|TIMESTAMP], or of [METHOD|PATH|TIMESTAMP|BODY] when a body
    is present. *)
Definition claimed_signature (secret method path timestamp : Py.str)
    (body : option Py.str) : result Py.str :=
  let bar := Py.lit "|" in
  let head := Py.upper case_table method ++ bar ++ path ++ bar ++ timestamp in
  let message :=
    match body with
    | Some b => head ++ bar ++ b
    | None => head
    end in
  match Py.encode_utf8 secret, Py.encode_utf8 message with
  | Some key, Some msg => Return (Hmac.hex (Hmac.digest key msg))
  | _, _ => Raise UnicodeEncodeError
  end.

End Client.

(** Two inputs of the signer that differ in exactly one of secret, method,
    path, timestamp and body. *)
Definition differ_in_exactly_one
    (s1 m1 p1 t1 : Py.str) (b1 : option Py.str)
    (s2 m2 p2 t2 : Py.str) (b2 : option Py.str) : Prop :=
  (s1 <> s2 /\ m1 = m2 /\ p1 = p2 /\ t1 = t2 /\ b1 = b2) \/
  (s1 = s2 /\ m1 <> m2 /\ p1 = p2 /\ t1 = t2 /\ b1 = b2) \/
  (s1 = s2 /\ m1 = m2 /\ p1 <> p2 /\ t1 = t2 /\ b1 = b2) \/
  (s1 = s2 /\ m1 = m2 /\ p1 = p2 /\ t1 <> t2 /\ b1 = b2) \/
  (s1 = s2 /\ m1 = m2 /\ p1 = p2 /\ t1 = t2 /\ b1 <> b2).

(** ** [str], [repr] and [ArchetypeAPIError.__str__] *)

Module Format.

(** Truth value of a Python value. *)
Definition truthy (v : Json.value) : bool :=
  match v with
  | Json.Null => false
  | Json.Bool b => b
  | Json.Int n => negb (n =? 0)%Z
  | Json.Str s => match s with [] => false | _ :: _ => true end
  | Json.Arr items => match items with [] => false | _ :: _ => true end
  | Json.Obj members => match members with [] => false | _ :: _ => true end
  end.

Definition hex2 (n : N) : Py.str :=
  [Hmac.hex_digit (n / 16 mod 16); Hmac.hex_digit (n mod 16)].

Definition hex8 (n : N) : Py.str := Json.hex4 (n / 65536) ++ Json.hex4 (n mod 65536).

(** The quote [repr] puts around a [str]: double when the text holds a
    single quote and no double quote, single otherwise. *)
Definition repr_quote (s : Py.str) : N :=
  if existsb (N.eqb 39) s && negb (existsb (N.eqb 34) s) then 34 else 39.

Section Repr.

(** [str.isprintable] on a code point outside ASCII. *)
Variable printable : N -> bool.

(** One code point inside [repr] of a [str] quoted with [quote]. *)
Definition repr_char (quote c : N) : Py.str :=
  if (c =? quote) || (c =? 92) then [92; c]
  else if c =? 9 then Py.lit "\t"
  else if c =? 10 then Py.lit "\n"
  else if c =? 13 then Py.lit "\r"
  else if (c <? 32) || (c =? 127) then Py.lit "\x" ++ hex2 c
  else if c <? 127 then [c]
  else if printable c then [c]
  else if c <? 0x100 then Py.lit "\x" ++ hex2 c
  else if c <? 0x10000 then Py.lit "\u" ++ Json.hex4 c
  else Py.lit "\U" ++ hex8 c.

(** [repr(s)] for a [str] *)
Definition repr_str (s : Py.str) : Py.str :=
  let quote := repr_quote s in
  quote :: flat_map (repr_char quote) s ++ [quote].

(** [repr(v)] *)
Fixpoint repr (v : Json.value) : Py.str :=
  match v with
  | Json.Null => Py.lit "None"
  | Json.Bool true => Py.lit "True"
  | Json.Bool false => Py.lit "False"
  | Json.Int n => Py.str_of_int n
  | Json.Str s => repr_str s
  | Json.Arr items => Py.lit "[" ++ Py.join (Py.lit ", ") (map repr items) ++ Py.lit "]"
  | Json.Obj members =>
      Py.lit "{" ++
      Py.join (Py.lit ", ")
        (map (fun kv => match kv with (k, x) => repr_str k ++ Py.lit ": " ++ repr x end)
             members)
      ++ Py.lit "}"
  end.

(** [str(v)], which is also what [{v}] gives in an f-string. *)
Definition str_of (v : Json.value) : Py.str :=
  match v with
  | Json.Str s => s
  | _ => repr v
  end.

(** [ArchetypeAPIError.__str__] *)
Definition __str__ (self : api_error) : Py.str :=
  if truthy self.(error_code) then
    Py.lit "[" ++ Py.str_of_int self.(status_code) ++ Py.lit "] Error "
    ++ str_of self.(error_code) ++ Py.lit ": " ++ str_of self.(message)
  else
    Py.lit "[" ++ Py.str_of_int self.(status_code) ++ Py.lit "] "
    ++ str_of self.(message).

End Repr.

(** A table that calls no code point outside ASCII printable. *)
Definition ascii_only : N -> bool := fun _ => false.

(** Text made of printable ASCII characters, and text made of ASCII ones. *)
Definition printable_ascii (s : Py.str) : bool :=
  forallb (fun c => (32 <=? c) && (c <=? 126)) s.

Definition ascii (s : Py.str) : bool := forallb (fun c => c <? 128) s.

End Format.

(** ** Sample data *)

Module Sample.

Definition client : ArchetypeClient :=
  __init__ (Py.lit "https://api.example.com/") (Py.lit "key") (Py.lit "s3cret") 30.

Definition other_client : ArchetypeClient :=
  __init__ (Py.lit "http://localhost:3000") (Py.lit "other-key") (Py.lit "s3cret") 5.

Definition timestamp : Py.str := Py.lit "1700000000".

(** A server that answers every request the same way, at a fixed time. *)
Definition answering (status_code : Z) (content : Py.bytes)
    (json_body : Requests.decoded) : world :=
  {| clock := 1700000000;
     network := fun _ =>
       Requests.Responded
         {| Requests.status_code := status_code;
            Requests.content := content;
            Requests.json_body := json_body |} |}.

(** [{"b": 1, "a": 2}] and the same mapping written [{"a": 2, "b": 1}]. *)
Definition b_then_a : Json.dict := [(Py.lit "b", Json.Int 1); (Py.lit "a", Json.Int 2)].
Definition a_then_b : Json.dict := [(Py.lit "a", Json.Int 2); (Py.lit "b", Json.Int 1)].

(** [{"b": 1, "a": {"y": null, "x": []}}] and
    [{"a": {"x": [], "y": null}, "b": 1}]. *)
Definition nested1 : Json.dict :=
  [(Py.lit "b", Json.Int 1);
   (Py.lit "a", Json.Obj [(Py.lit "y", Json.Null); (Py.lit "x", Json.Arr [])])].
Definition nested2 : Json.dict :=
  [(Py.lit "a", Json.Obj [(Py.lit "x", Json.Arr []); (Py.lit "y", Json.Null)]);
   (Py.lit "b", Json.Int 1)].

(** [{"errmsg": "not found", "errorcode": 42}] *)
Definition not_found : Json.dict :=
  [(Py.lit "errmsg", Json.Str (Py.lit "not found")); (Py.lit "errorcode", Json.Int 42)].

(** What the JSON decoder says of a body that starts with [<]. *)
Definition no_json : Py.str := Py.lit "Expecting value: line 1 column 1 (char 0)".

(** The request [client] makes for [GET /x] at the time of [answering]. *)
Definition get_x : Requests.Request :=
  {| Requests.method := Py.lit "GET";
     Requests.url := Py.lit "https://api.example.com/x";
     Requests.headers :=
       [(Py.lit "X-API-Key", Py.lit "key");
        (Py.lit "X-Timestamp", timestamp);
        (Py.lit "X-Signature",
         Py.lit "f90fe75aec1b8609ddbb4cdfaa1d323cba9521ad386f14af53d65aacf03a199b");
        (Py.lit "Content-Type", Py.lit "application/json");
        (Py.lit "Accept", Py.lit "application/json")];
     Requests.params := None;
     Requests.json := None;
     Requests.timeout := 30 |}.

(** The request [client] makes for [POST /x] with body [a_then_b]. *)
Definition post_x : Requests.Request :=
  {| Requests.method := Py.lit "POST";
     Requests.url := Py.lit "https://api.example.com/x";
     Requests.headers :=
       [(Py.lit "X-API-Key", Py.lit "key");
        (Py.lit "X-Timestamp", timestamp);
        (Py.lit "X-Signature",
         Py.lit "fc1fa39fa8a39950cab87fbce6c1c4bb9d66c5c7ee2ac5b48a12df0969c2b02b");
        (Py.lit "Content-Type", Py.lit "application/json");
        (Py.lit "Accept", Py.lit "application/json")];
     Requests.params := None;
     Requests.json := Some a_then_b;
     Requests.timeout := 30 |}.

End Sample.

(** The same data with the keys of every dict in the order [sort_keys]
    gives them. *)
Module Canonical.

Fixpoint canonical (v : Json.value) : Json.value :=
  match v with
  | Json.Arr items => Json.Arr (map canonical items)
  | Json.Obj members =>
      Json.Obj (Json.sort_items
                  (map (fun kv => match kv with (k, x) => (k, canonical x) end) members))
  | _ => v
  end.

End Canonical.

(** More sample data: [{"archepids": ["A052x"]}], a 200 that carries it,
    and a network that is down. *)
Module Sample2.

Definition archepids : Json.value :=
  Json.Obj [(Py.lit "archepids", Json.Arr [Json.Str (Py.lit "A052x")])].

Definition ok : world := Sample.answering 200 [123] (Requests.Parsed archepids).

Definition ok_response : Requests.Response :=
  {| Requests.status_code := 200;
     Requests.content := [123];
     Requests.json_body := Requests.Parsed archepids |}.

Definition refused : Py.str := Py.lit "Connection refused".

Definition down : world :=
  {| clock := 1700000000; network := fun _ => Requests.Failed refused |}.

(** [{"errmsg": "busy", "errorcode": 0}] *)
Definition busy : Json.dict :=
  [(Py.lit "errmsg", Json.Str (Py.lit "busy")); (Py.lit "errorcode", Json.Int 0)].

Definition busy_response : Requests.Response :=
  {| Requests.status_code := 503;
     Requests.content := [123];
     Requests.json_body := Requests.Parsed (Json.Obj busy) |}.

Definition list_response : Requests.Response :=
  {| Requests.status_code := 500;
     Requests.content := [91; 93];
     Requests.json_body := Requests.Parsed (Json.Arr []) |}.

Definition html_response : Requests.Response :=
  {| Requests.status_code := 502;
     Requests.content := Py.lit "<html>";
     Requests.json_body := Requests.Malformed Sample.no_json |}.

Definition answer (response : Requests.Response) : world :=
  {| clock := 1700000000; network := fun _ => Requests.Responded response |}.

End Sample2.

(** * Properties *)

(** ** Strings *)

Lemma join3 (sep a b c : Py.str) :
  Py.join sep [a; b; c] = a ++ sep ++ b ++ sep ++ c.
Proof. reflexivity. Qed.

Lemma join4 (sep a b c d : Py.str) :
  Py.join sep [a; b; c; d] = a ++ sep ++ b ++ sep ++ c ++ sep ++ d.
Proof. reflexivity. Qed.

Lemma rstrip_suffix (c : N) (s : Py.str) :
  exists n, s = Py.rstrip c s ++ repeat c n.
Proof.
  induction s as [|x rest [n IH]]; simpl.
  - exists 0%nat. reflexivity.
  - destruct (Py.rstrip c rest) as [|y kept] eqn:E.
    + destruct (N.eqb_spec x c) as [->|Hne].
      * exists (S n). simpl. simpl in IH. now rewrite IH at 1.
      * exists n. simpl. simpl in IH. now rewrite IH at 1.
    + exists n. simpl. now rewrite IH at 1.
Qed.

Lemma rstrip_no_trailing (c : N) (s pre : Py.str) :
  Py.rstrip c s <> pre ++ [c].
Proof.
  revert pre. induction s as [|x rest IH]; intros pre; simpl.
  - now destruct pre.
  - destruct (Py.rstrip c rest) as [|y kept] eqn:E.
    + destruct (N.eqb_spec x c) as [->|Hne].
      * now destruct pre.
      * destruct pre as [|p [|q pre]]; simpl; congruence.
    + destruct pre as [|p pre]; simpl.
      * destruct kept; discriminate.
      * intros H. injection H as _ H. now apply (IH pre).
Qed.

Lemma rstrip_fixed (c : N) (s : Py.str) :
  (forall pre, s <> pre ++ [c]) -> Py.rstrip c s = s.
Proof.
  induction s as [|x rest IH]; intros H; simpl; [reflexivity|].
  rewrite IH.
  - destruct rest as [|y rest']; [|reflexivity].
    destruct (N.eqb_spec x c) as [->|Hne]; [|reflexivity].
    now destruct (H []).
  - intros pre ->. now apply (H (x :: pre)).
Qed.

Lemma str_ltb_irrefl (s : Py.str) : Py.str_ltb s s = false.
Proof.
  induction s as [|x s IH]; simpl; [reflexivity|].
  now rewrite N.ltb_irrefl, N.eqb_refl, IH.
Qed.

Lemma str_ltb_asym (s t : Py.str) :
  Py.str_ltb s t = true -> Py.str_ltb t s = false.
Proof.
  revert t. induction s as [|x s IH]; intros [|y t]; simpl; try easy.
  destruct (N.ltb_spec x y), (N.ltb_spec y x), (N.eqb_spec x y), (N.eqb_spec y x);
    simpl; try lia; try easy; apply IH.
Qed.

Lemma str_ltb_connex (s t : Py.str) :
  Py.str_ltb s t = false -> Py.str_ltb t s = false -> s = t.
Proof.
  revert t. induction s as [|x s IH]; intros [|y t]; simpl; try easy.
  destruct (N.ltb_spec x y), (N.ltb_spec y x), (N.eqb_spec x y), (N.eqb_spec y x);
    simpl; try lia; try easy.
  all: subst; intros H1 H2; f_equal; now apply IH.
Qed.

Lemma str_ltb_cotrans (s t u : Py.str) :
  Py.str_ltb s u = true -> Py.str_ltb s t = true \/ Py.str_ltb t u = true.
Proof.
  revert t u. induction s as [|x s IH]; intros [|y t] [|z u]; simpl; auto.
  destruct (N.ltb_spec x z), (N.ltb_spec x y), (N.ltb_spec y z),
    (N.eqb_spec x z), (N.eqb_spec x y), (N.eqb_spec y z);
    simpl; auto; try lia; try easy; apply IH.
Qed.

Lemma str_leb_total (s t : Py.str) :
  Py.str_leb s t = true \/ Py.str_leb t s = true.
Proof.
  unfold Py.str_leb. destruct (Py.str_ltb t s) eqn:E; [right|now left].
  now rewrite (str_ltb_asym _ _ E).
Qed.

Lemma str_leb_antisym (s t : Py.str) :
  Py.str_leb s t = true -> Py.str_leb t s = true -> s = t.
Proof.
  unfold Py.str_leb. intros H1 H2. apply str_ltb_connex.
  - now destruct (Py.str_ltb s t).
  - now destruct (Py.str_ltb t s).
Qed.

Lemma str_leb_trans (s t u : Py.str) :
  Py.str_leb s t = true -> Py.str_leb t u = true -> Py.str_leb s u = true.
Proof.
  unfold Py.str_leb. intros H1 H2.
  destruct (Py.str_ltb u s) eqn:E; [|reflexivity].
  destruct (str_ltb_cotrans u t s E) as [H|H]; rewrite H in *; discriminate.
Qed.

(** ** UTF-8 is injective *)

Lemma shiftr6 (c : N) : N.shiftr c 6 = c / 64.
Proof. now rewrite N.shiftr_div_pow2. Qed.
Lemma shiftr12 (c : N) : N.shiftr c 12 = c / 64 / 64.
Proof. now rewrite N.shiftr_div_pow2, N.Div0.div_div. Qed.
Lemma shiftr18 (c : N) : N.shiftr c 18 = c / 64 / 64 / 64.
Proof. now rewrite N.shiftr_div_pow2, !N.Div0.div_div. Qed.
Lemma land63 (c : N) : N.land c 0x3F = c mod 64.
Proof. change 0x3F with (N.ones 6). now rewrite N.land_ones. Qed.

Lemma some_eq {A : Type} (x y : A) : Some x = Some y -> x = y.
Proof. congruence. Qed.

Ltac split64 a :=
  let q := fresh "q" in
  let r := fresh "r" in
  pose proof (N.div_mod a 64 ltac:(discriminate));
  pose proof (N.mod_lt a 64 ltac:(discriminate));
  set (q := a / 64) in *; set (r := a mod 64) in *; clearbody q r.

Lemma utf8_char_shape c b : Py.utf8_char c = Some b -> Py.utf8_shape c b.
Proof.
  unfold Py.utf8_char.
  destruct (N.ltb_spec c 0x80); [intros E; apply some_eq in E; subst b; now constructor|].
  destruct (N.ltb_spec c 0x800).
  { intros E; apply some_eq in E; subst b. rewrite shiftr6, land63.
    split64 c. apply Py.Shape2; lia. }
  destruct ((0xD800 <=? c) && (c <=? 0xDFFF)); [discriminate|].
  destruct (N.ltb_spec c 0x10000).
  { intros E; apply some_eq in E; subst b. rewrite shiftr12, shiftr6, !land63.
    split64 c. split64 q. apply Py.Shape3; lia. }
  destruct (N.ltb_spec c 0x110000); [|discriminate].
  intros E; apply some_eq in E; subst b.
  rewrite shiftr18, shiftr12, shiftr6, !land63.
  split64 c. split64 q. split64 q0. apply Py.Shape4; lia.
Qed.

Lemma cons_eq {A : Type} (x y : A) (l l' : list A) :
  x :: l = y :: l' -> x = y /\ l = l'.
Proof. intros H. now injection H. Qed.

Lemma utf8_char_prefix_free (c1 c2 : N) (b1 b2 r1 r2 : Py.bytes) :
  Py.utf8_char c1 = Some b1 -> Py.utf8_char c2 = Some b2 ->
  b1 ++ r1 = b2 ++ r2 -> c1 = c2 /\ r1 = r2.
Proof.
  intros H1 H2 E.
  destruct (utf8_char_shape _ _ H1); destruct (utf8_char_shape _ _ H2);
    cbn [app] in E;
    repeat (let H := fresh "B" in apply cons_eq in E; destruct E as [H E]);
    split; try assumption; lia.
Qed.

Lemma utf8_char_nonempty (c : N) : Py.utf8_char c <> Some [].
Proof.
  unfold Py.utf8_char.
  repeat match goal with
    | |- context [if ?b then _ else _] => destruct b
    end; discriminate.
Qed.

Lemma encode_utf8_inj (s1 s2 : Py.str) (bs : Py.bytes) :
  Py.encode_utf8 s1 = Some bs -> Py.encode_utf8 s2 = Some bs -> s1 = s2.
Proof.
  revert s2 bs. induction s1 as [|c1 s1 IH]; intros [|c2 s2] bs; simpl; auto.
  - intros [= <-].
    destruct (Py.utf8_char c2) as [[|b b2]|] eqn:E2; try discriminate.
    + now destruct (utf8_char_nonempty c2).
    + destruct (Py.encode_utf8 s2); discriminate.
  - destruct (Py.utf8_char c1) as [[|b b1]|] eqn:E1; try discriminate.
    + now destruct (utf8_char_nonempty c1).
    + destruct (Py.encode_utf8 s1); try discriminate. intros [= <-]. discriminate.
  - destruct (Py.utf8_char c1) as [b1|] eqn:E1; try discriminate.
    destruct (Py.encode_utf8 s1) as [r1|] eqn:R1; try discriminate.
    destruct (Py.utf8_char c2) as [b2|] eqn:E2; try discriminate.
    destruct (Py.encode_utf8 s2) as [r2|] eqn:R2; try discriminate.
    intros [= <-] [= E].
    destruct (utf8_char_prefix_free c1 c2 b1 b2 r1 r2 E1 E2 (eq_sym E)) as [-> ->].
    f_equal. now apply (IH s2 r2).
Qed.


(** ** [json.dumps] with [sort_keys=True] *)

Lemma value_ind_deep (P : Json.value -> Prop) :
  P Json.Null ->
  (forall b, P (Json.Bool b)) ->
  (forall n, P (Json.Int n)) ->
  (forall s, P (Json.Str s)) ->
  (forall items, Forall P items -> P (Json.Arr items)) ->
  (forall members, Forall (fun kv => P (snd kv)) members -> P (Json.Obj members)) ->
  forall v, P v.
Proof.
  intros HNull HBool HInt HStr HArr HObj. fix IH 1.
  intros [|b|n|s|items|members];
    [exact HNull|apply HBool|apply HInt|apply HStr| |].
  - apply HArr. induction items as [|x items IHitems]; constructor;
      [apply IH|exact IHitems].
  - apply HObj. induction members as [|[k x] members IHmembers]; constructor;
      [apply IH|exact IHmembers].
Qed.

Lemma distinct_keys_NoDup (keys : list Py.str) :
  Json.distinct_keys keys = true -> NoDup keys.
Proof.
  induction keys as [|k rest IH]; simpl; [constructor|].
  intros H. apply andb_prop in H as [Hk Hrest]. constructor; [|now apply IH].
  intros Hin. apply negb_true_iff in Hk.
  assert (existsb (fun k' => if list_eq_dec N.eq_dec k k' then true else false) rest
          = true) as E; [|congruence].
  apply existsb_exists. exists k. split; [assumption|].
  now destruct (list_eq_dec N.eq_dec k k).
Qed.

Lemma sort_items_cons {A : Type} (a : Py.str * A) (l : list (Py.str * A)) :
  Json.sort_items (a :: l) = Json.insert_item a (Json.sort_items l).
Proof. reflexivity. Qed.

Section SortItems.
Context {A : Type}.
Implicit Types (a b : Py.str * A) (l : list (Py.str * A)).

Lemma insert_item_comm a b l :
  fst a <> fst b ->
  Json.insert_item a (Json.insert_item b l) = Json.insert_item b (Json.insert_item a l).
Proof.
  intros Hne. induction l as [|x l IH]; simpl.
  - destruct (Py.str_leb (fst a) (fst b)) eqn:Eab,
             (Py.str_leb (fst b) (fst a)) eqn:Eba; try reflexivity.
    + now destruct Hne; apply str_leb_antisym.
    + destruct (str_leb_total (fst a) (fst b)); congruence.
  - destruct (Py.str_leb (fst a) (fst x)) eqn:Eax,
             (Py.str_leb (fst b) (fst x)) eqn:Ebx; simpl;
      rewrite ?Eax, ?Ebx;
      destruct (Py.str_leb (fst a) (fst b)) eqn:Eab,
               (Py.str_leb (fst b) (fst a)) eqn:Eba;
      simpl; rewrite ?Eax, ?Ebx; try reflexivity;
      try (now destruct Hne; apply str_leb_antisym);
      try (destruct (str_leb_total (fst a) (fst b)); congruence);
      try (rewrite (str_leb_trans _ _ _ Eab Ebx) in Eax; discriminate);
      try (rewrite (str_leb_trans _ _ _ Eba Eax) in Ebx; discriminate).
    all: now rewrite IH.
Qed.

Lemma sort_items_perm l1 l2 :
  Permutation l1 l2 -> NoDup (map fst l1) ->
  Json.sort_items l1 = Json.sort_items l2.
Proof.
  induction 1 as [|x l l' HP IH|x y l|l l' l'' HP1 IH1 HP2 IH2]; intros Hnd;
    rewrite ?sort_items_cons.
  - reflexivity.
  - inversion Hnd; subst. now rewrite IH.
  - apply insert_item_comm. inversion Hnd; subst. simpl in *. intuition congruence.
  - rewrite IH1 by assumption. apply IH2.
    apply (Permutation_NoDup (l := map fst l)); [now apply Permutation_map|assumption].
Qed.

Lemma insert_item_map {B : Type} (f : A -> B) a l :
  Json.insert_item (fst a, f (snd a)) (map (fun kv => (fst kv, f (snd kv))) l)
  = map (fun kv => (fst kv, f (snd kv))) (Json.insert_item a l).
Proof.
  induction l as [|x l IH]; simpl; [reflexivity|].
  destruct (Py.str_leb (fst a) (fst x)); simpl; [reflexivity|]. now rewrite IH.
Qed.

Lemma sort_items_map {B : Type} (f : A -> B) l :
  Json.sort_items (map (fun kv => (fst kv, f (snd kv))) l)
  = map (fun kv => (fst kv, f (snd kv))) (Json.sort_items l).
Proof.
  induction l as [|x l IH]; [reflexivity|].
  cbn [map]. rewrite !sort_items_cons, IH. apply insert_item_map.
Qed.

End SortItems.

Lemma dumps_obj_rendered (sort_keys : bool) (members : Json.dict) :
  Json.dumps sort_keys (Json.Obj members)
  = let rendered := map (fun kv => (fst kv, Json.dumps sort_keys (snd kv))) members in
    Py.lit "{" ++
    Py.join Json.item_separator
      (map Json.render_item (if sort_keys then Json.sort_items rendered else rendered))
    ++ Py.lit "}".
Proof.
  cbn [Json.dumps].
  replace (map (fun kv : Py.str * Json.value =>
                  let (k, x) := kv in (k, Json.dumps sort_keys x)) members)
    with (map (fun kv => (fst kv, Json.dumps sort_keys (snd kv))) members)
    by (apply map_ext; now intros [k x]).
  reflexivity.
Qed.

(** The encoder puts the items of a [dict] in order and then renders them. *)
Lemma dumps_obj (sort_keys : bool) (members : Json.dict) :
  Json.dumps sort_keys (Json.Obj members)
  = Py.lit "{" ++
    Py.join Json.item_separator
      (map (fun kv => Json.encode_basestring_ascii (fst kv) ++ Json.key_separator
                      ++ Json.dumps sort_keys (snd kv))
           (if sort_keys then Json.sort_items members else members))
    ++ Py.lit "}".
Proof.
  rewrite dumps_obj_rendered. cbv zeta.
  destruct sort_keys.
  - now rewrite sort_items_map, map_map.
  - now rewrite map_map.
Qed.

Section SameMapping.

Lemma items_dumps_same (items1 items2 : list Json.value) :
  Forall Json.order_independent items1 -> Forall2 Json.same_mapping items1 items2 ->
  forallb Json.well_formed items1 = true ->
  map (Json.dumps true) items1 = map (Json.dumps true) items2.
Proof.
  intros HP H. induction H as [|x y xs ys Hxy Hrest IH]; [reflexivity|].
  simpl. intros Hwf. apply andb_prop in Hwf as [Hx Hxs].
  inversion HP; subst. f_equal; auto.
Qed.

Lemma members_dumps_same (members1 members2 : Json.dict) :
  Forall (fun kv => Json.order_independent (snd kv)) members1 ->
  Forall2 (fun kv1 kv2 => fst kv1 = fst kv2 /\ Json.same_mapping (snd kv1) (snd kv2))
          members1 members2 ->
  forallb (fun kv => Json.well_formed (snd kv)) members1 = true ->
  map (fun kv => (fst kv, Json.dumps true (snd kv))) members1
  = map (fun kv => (fst kv, Json.dumps true (snd kv))) members2.
Proof.
  intros HP H. induction H as [|x y xs ys [Hk Hxy] Hrest IH]; [reflexivity|].
  simpl. intros Hwf. apply andb_prop in Hwf as [Hx Hxs].
  inversion HP; subst. f_equal; auto. f_equal; auto.
Qed.

Lemma members_same_keys (R : Json.value -> Json.value -> Prop)
    (members1 members2 : Json.dict) :
  Forall2 (fun kv1 kv2 => fst kv1 = fst kv2 /\ R (snd kv1) (snd kv2))
          members1 members2 ->
  map fst members1 = map fst members2.
Proof.
  induction 1 as [|x y xs ys [Hk _] _ IH]; [reflexivity|].
  simpl. now rewrite Hk, IH.
Qed.

Lemma dumps_sorted_same (a : Json.value) : Json.order_independent a.
Proof.
  induction a as [|b0|n|s|items IH|members IH] using value_ind_deep;
    intros b Hsame Hwf; inversion Hsame; subst; try reflexivity.
  - cbn [Json.dumps]. do 3 f_equal. now apply items_dumps_same.
  - rewrite !dumps_obj_rendered. cbv zeta.
    cbn [Json.well_formed] in Hwf. apply andb_prop in Hwf as [Hkeys Hvals].
    apply distinct_keys_NoDup in Hkeys.
    rewrite (members_dumps_same members reordered) by assumption.
    match goal with HP : Permutation members2 reordered |- _ =>
      rewrite (sort_items_perm _ _
                 (Permutation_map (fun kv => (fst kv, Json.dumps true (snd kv))) HP))
    end; [reflexivity|].
    rewrite map_map. cbn [fst].
    apply (Permutation_NoDup (l := map fst members)); [|assumption].
    rewrite (members_same_keys _ members reordered) by eassumption.
    apply Permutation_map. now apply Permutation_sym.
Qed.

End SameMapping.

Lemma sort_items_ascending {A : Type} (l : list (Py.str * A)) :
  Json.keys_ascending (map fst l) = true -> Json.sort_items l = l.
Proof.
  induction l as [|x l IH]; [reflexivity|].
  cbn [map Json.keys_ascending]. intros H. apply andb_prop in H as [Hx Hl].
  rewrite sort_items_cons, (IH Hl).
  destruct l as [|y l]; [reflexivity|].
  cbn [map] in Hx. cbn [Json.insert_item]. now rewrite Hx.
Qed.

(** With the keys already in order, [sort_keys] changes nothing. *)
Lemma dumps_key_sorted (v : Json.value) :
  Json.key_sorted v = true -> Json.dumps true v = Json.dumps false v.
Proof.
  induction v as [|b|n|s|items IH|members IH] using value_ind_deep;
    intros Hs; try reflexivity.
  - cbn [Json.dumps]. do 3 f_equal. cbn [Json.key_sorted] in Hs.
    induction IH as [|x xs Hx _ IHxs]; [reflexivity|].
    cbn [forallb] in Hs. apply andb_prop in Hs as [H1 H2].
    cbn [map]. now rewrite (Hx H1), (IHxs H2).
  - rewrite !dumps_obj.
    cbn [Json.key_sorted] in Hs. apply andb_prop in Hs as [Hkeys Hvals].
    rewrite (sort_items_ascending _ Hkeys). do 3 f_equal.
    clear Hkeys. induction IH as [|x xs Hx _ IHxs]; [reflexivity|].
    cbn [forallb] in Hvals. apply andb_prop in Hvals as [H1 H2].
    cbn [map]. now rewrite (Hx H1), (IHxs H2).
Qed.

Lemma get_lookup (d : Json.dict) (key : Py.str) (default : Json.value) :
  Json.get d key default
  = match Json.lookup d key with Some v => v | None => default end.
Proof.
  induction d as [|[k v] rest IH]; simpl; [reflexivity|].
  now destruct (list_eq_dec N.eq_dec k key).
Qed.

(** ** The digest is 64 lowercase hexadecimal digits *)

(** The test vectors of FIPS 180-4 (the message [abc]) and of RFC 4231
    (test case 2). *)
Example sha256_abc :
  Hmac.hex (Sha256.digest (Py.lit "abc"))
  = Py.lit "ba7816bf8f01cfea414140de5dae2223b00361a396177a9cb410ff61f20015ad".
Proof. vm_compute. reflexivity. Qed.

Example hmac_sha256_rfc4231_2 :
  Hmac.hexdigest (Py.lit "Jefe") (Py.lit "what do ya want for nothing?")
  = Py.lit "5bdcc146bf60754e6a042426089575c75a003f089d2739839dec58b964ec3843".
Proof. vm_compute. reflexivity. Qed.

Lemma be_bytes_length (width : nat) (x : N) :
  length (Sha256.be_bytes width x) = width.
Proof. unfold Sha256.be_bytes. now rewrite length_map, length_rev, length_seq. Qed.

Lemma sha256_digest_length (msg : Py.bytes) : length (Sha256.digest msg) = 32%nat.
Proof.
  unfold Sha256.digest, Sha256.state_bytes.
  now rewrite !length_app, !be_bytes_length.
Qed.

Lemma hex_length (bs : Py.bytes) : length (Hmac.hex bs) = (2 * length bs)%nat.
Proof. induction bs as [|b bs IH]; simpl; [reflexivity|]. rewrite IH. lia. Qed.

Lemma hex_digit_lower (d : N) : Hmac.lower_hex (Hmac.hex_digit d) = true.
Proof.
  unfold Hmac.hex_digit.
  destruct (nth_in_or_default (N.to_nat d) (Py.lit "0123456789abcdef") 48) as [Hin| ->];
    [|reflexivity].
  revert Hin. generalize (nth (N.to_nat d) (Py.lit "0123456789abcdef") 48).
  intros c Hin.
  assert (forallb Hmac.lower_hex (Py.lit "0123456789abcdef") = true) as Hall
    by reflexivity.
  rewrite forallb_forall in Hall. now apply Hall.
Qed.

Lemma hex_lower (bs : Py.bytes) : forallb Hmac.lower_hex (Hmac.hex bs) = true.
Proof.
  induction bs as [|b bs IH]; [reflexivity|].
  cbn [Hmac.hex flat_map app forallb]. fold (Hmac.hex bs).
  now rewrite !hex_digit_lower, IH.
Qed.

Lemma hexdigest_shape (key msg : Py.bytes) :
  length (Hmac.hexdigest key msg) = 64%nat
  /\ forallb Hmac.lower_hex (Hmac.hexdigest key msg) = true.
Proof.
  unfold Hmac.hexdigest. split; [|apply hex_lower].
  rewrite hex_length. unfold Hmac.digest. now rewrite sha256_digest_length.
Qed.

(** ** The signer *)

Section Signer.

Variable case_table : N -> list N.

(** The signed message, flat: the body part is there for a body that is
    neither [None] nor empty. *)
Lemma signing_message_flat (method path timestamp : Py.str) (body : option Py.str) :
  signing_message case_table method path timestamp body
  = Py.upper case_table method ++ Py.lit "|" ++ path ++ Py.lit "|" ++ timestamp
    ++ match nonempty_body body with
       | Some b => Py.lit "|" ++ b
       | None => []
       end.
Proof.
  unfold signing_message.
  destruct body as [[|c b]|]; cbn [str_truthy nonempty_body app];
    rewrite ?join3, ?join4, ?app_nil_r; reflexivity.
Qed.

Lemma generate_signature_claimed (self : ArchetypeClient)
    (method path timestamp : Py.str) (body : option Py.str) :
  _generate_signature case_table self method path timestamp body
  = claimed_signature case_table self.(api_secret) method path timestamp
      (nonempty_body body).
Proof.
  unfold _generate_signature, claimed_signature.
  rewrite signing_message_flat.
  destruct (nonempty_body body) as [b|]; cbv zeta;
    rewrite <- ?app_assoc, ?app_nil_r;
    destruct (Py.encode_utf8 self.(api_secret)); try reflexivity.
  all: match goal with |- context [Py.encode_utf8 ?m] =>
         destruct (Py.encode_utf8 m) end; reflexivity.
Qed.



Lemma signing_message_sensitive
    (m1 p1 t1 : Py.str) (b1 : option Py.str)
    (m2 p2 t2 : Py.str) (b2 : option Py.str) (s : Py.str) :
  differ_in_exactly_one s (Py.upper case_table m1) p1 t1 (nonempty_body b1)
                        s (Py.upper case_table m2) p2 t2 (nonempty_body b2) ->
  signing_message case_table m1 p1 t1 b1 <> signing_message case_table m2 p2 t2 b2.
Proof.
  rewrite !signing_message_flat.
  intros [(H & _)|[(_ & Hm & <- & <- & <-)|[(_ & <- & Hp & <- & <-)|
          [(_ & <- & <- & Ht & <-)|(_ & <- & <- & <- & Hb)]]]] E.
  - now apply H.
  - apply Hm. eapply app_inv_tail. exact E.
  - apply Hp. do 2 apply app_inv_head in E.
    rewrite !app_assoc in E. do 3 apply app_inv_tail in E. exact E.
  - apply Ht. do 4 apply app_inv_head in E. apply app_inv_tail in E. exact E.
  - apply Hb. do 5 apply app_inv_head in E.
    destruct (nonempty_body b1), (nonempty_body b2); try discriminate; try reflexivity.
    apply app_inv_head in E. now subst.
Qed.

(** C2 (as amended): [_generate_signature] returns the lowercase
    hexadecimal HMAC-SHA256, keyed by the UTF-8 bytes of the secret, of the
    UTF-8 bytes of the [|]-joined uppercased method, path, timestamp and,
    only when a body is present and not the empty string, the body; what it
    returns is 64 lowercase hexadecimal digits, and it raises nothing but
    [UnicodeEncodeError]. *)
Theorem C2_signature_is_hmac_of_joined_message (self : ArchetypeClient)
    (method path timestamp : Py.str) (body : option Py.str) :
  _generate_signature case_table self method path timestamp body
  = claimed_signature case_table self.(api_secret) method path timestamp
      (nonempty_body body)
  /\ match _generate_signature case_table self method path timestamp body with
     | Return signature =>
         length signature = 64%nat /\ forallb Hmac.lower_hex signature = true
     | Raise e => e = UnicodeEncodeError
     end.
Proof.
  split; [apply generate_signature_claimed|].
  unfold _generate_signature.
  destruct (Py.encode_utf8 self.(api_secret)) as [key|]; [|reflexivity].
  destruct (Py.encode_utf8 _) as [msg|]; [|reflexivity].
  apply hexdigest_shape.
Qed.

(** C3 (as amended): when two inputs of [_generate_signature] differ in
    exactly one of the secret, the uppercased method, the path, the
    timestamp and the non-empty body, the two digests it returns are
    HMAC-SHA256 digests of two different (key, message) pairs. *)
Theorem C3_one_change_changes_the_hmac_input
    (self1 self2 : ArchetypeClient)
    (m1 p1 t1 : Py.str) (b1 : option Py.str)
    (m2 p2 t2 : Py.str) (b2 : option Py.str) (sig1 sig2 : Py.str) :
  differ_in_exactly_one
    self1.(api_secret) (Py.upper case_table m1) p1 t1 (nonempty_body b1)
    self2.(api_secret) (Py.upper case_table m2) p2 t2 (nonempty_body b2) ->
  _generate_signature case_table self1 m1 p1 t1 b1 = Return sig1 ->
  _generate_signature case_table self2 m2 p2 t2 b2 = Return sig2 ->
  exists key1 msg1 key2 msg2,
    Py.encode_utf8 self1.(api_secret) = Some key1
    /\ Py.encode_utf8 (signing_message case_table m1 p1 t1 b1) = Some msg1
    /\ Py.encode_utf8 self2.(api_secret) = Some key2
    /\ Py.encode_utf8 (signing_message case_table m2 p2 t2 b2) = Some msg2
    /\ sig1 = Hmac.hexdigest key1 msg1
    /\ sig2 = Hmac.hexdigest key2 msg2
    /\ (key1, msg1) <> (key2, msg2).
Proof.
  intros Hdiff H1 H2. unfold _generate_signature in H1, H2.
  destruct (Py.encode_utf8 self1.(api_secret)) as [key1|] eqn:K1; [|discriminate].
  destruct (Py.encode_utf8 (signing_message case_table m1 p1 t1 b1))
    as [msg1|] eqn:M1; [|discriminate].
  destruct (Py.encode_utf8 self2.(api_secret)) as [key2|] eqn:K2; [|discriminate].
  destruct (Py.encode_utf8 (signing_message case_table m2 p2 t2 b2))
    as [msg2|] eqn:M2; [|discriminate].
  injection H1 as <-. injection H2 as <-.
  exists key1, msg1, key2, msg2. repeat split; try reflexivity.
  intros E. injection E as -> ->.
  pose proof (encode_utf8_inj _ _ _ K1 K2) as Hs.
  pose proof (encode_utf8_inj _ _ _ M1 M2) as Hm.
  destruct Hdiff as [(H & _)|Hdiff]; [now apply H|].
  revert Hm. apply signing_message_sensitive with (s := self1.(api_secret)).
  right. rewrite Hs at 2.
  destruct Hdiff as [(_ & H)|[(_ & H)|[(_ & H)|(_ & H)]]]; intuition.
Qed.

(** C7: the signature depends on the client through its secret alone; with
    the same method, path, timestamp, body and secret, two clients in any
    state get the same result. *)
Theorem C7_signature_is_a_function_of_its_inputs
    (self1 self2 : ArchetypeClient)
    (method path timestamp : Py.str) (body : option Py.str) :
  self1.(api_secret) = self2.(api_secret) ->
  _generate_signature case_table self1 method path timestamp body
  = _generate_signature case_table self2 method path timestamp body.
Proof. intros E. unfold _generate_signature. now rewrite E. Qed.

(** C10: the empty string as body is signed as no body at all: no fourth
    part is joined and the digest is that of the call without a body. *)
Theorem C10_empty_body_is_no_body (self : ArchetypeClient)
    (method path timestamp : Py.str) :
  signing_message case_table method path timestamp (Some [])
  = Py.join (Py.lit "|") [Py.upper case_table method; path; timestamp]
  /\ _generate_signature case_table self method path timestamp (Some [])
     = _generate_signature case_table self method path timestamp None.
Proof. split; reflexivity. Qed.

End Signer.

(** ** The transport *)

Section Transport.

Variable case_table : N -> list N.

Lemma prepare_inv (self : ArchetypeClient) (now : Z) (method path : Py.str)
    (params json_data : option Json.dict) (request : Requests.Request) :
  prepare case_table self now method path params json_data = Return request ->
  exists signature,
    _generate_signature case_table self method path (Py.str_of_int now)
      (body_str json_data) = Return signature
    /\ request = {| Requests.method := method;
                    Requests.url := self.(base_url) ++ path;
                    Requests.headers :=
                      [(Py.lit "X-API-Key", self.(api_key));
                       (Py.lit "X-Timestamp", Py.str_of_int now);
                       (Py.lit "X-Signature", signature);
                       (Py.lit "Content-Type", Py.lit "application/json");
                       (Py.lit "Accept", Py.lit "application/json")];
                    Requests.params := params;
                    Requests.json := json_data;
                    Requests.timeout := self.(timeout) |}.
Proof.
  unfold prepare, _get_headers, bind.
  destruct (_generate_signature _ _ _ _ _ _) as [signature|e]; [|discriminate].
  intros [= <-]. now exists signature.
Qed.

Lemma make_request_responded (self : ArchetypeClient) (w : world)
    (method path : Py.str) (params json_data : option Json.dict)
    (request : Requests.Request) (response : Requests.Response) :
  prepare case_table self w.(clock) method path params json_data = Return request ->
  w.(network) request = Requests.Responded response ->
  _make_request case_table self w method path params json_data = handle response.
Proof. intros Hp Hn. unfold _make_request. rewrite Hp. simpl. now rewrite Hn. Qed.

(** C1 (as amended): for a request with a non-empty JSON body, the text
    that is signed is the sorted-key encoding of the body, and the
    [X-Signature] header is its signature; the bytes that are sent are the
    encoding of the same body with the keys in insertion order; the two are
    the same bytes when the keys of the body are in ascending order at
    every depth. *)
Theorem C1_signed_body_is_sorted_sent_body_is_as_inserted
    (self : ArchetypeClient) (now : Z) (method path : Py.str)
    (params : option Json.dict) (d : Json.dict) (request : Requests.Request) :
  d <> [] ->
  prepare case_table self now method path params (Some d) = Return request ->
  body_str (Some d) = Some (Json.dumps true (Json.Obj d))
  /\ (exists signature,
        _generate_signature case_table self method path (Py.str_of_int now)
          (Some (Json.dumps true (Json.Obj d))) = Return signature
        /\ Requests.header (Py.lit "X-Signature") request.(Requests.headers)
           = Some signature)
  /\ Requests.wire_body request = Py.encode_utf8 (Json.dumps false (Json.Obj d))
  /\ (Json.key_sorted (Json.Obj d) = true ->
      Py.encode_utf8 (Json.dumps true (Json.Obj d)) = Requests.wire_body request).
Proof.
  intros Hd Hp.
  assert (body_str (Some d) = Some (Json.dumps true (Json.Obj d))) as Hb
    by now destruct d.
  destruct (prepare_inv _ _ _ _ _ _ _ Hp) as (signature & Hsig & ->).
  rewrite Hb in Hsig. split; [exact Hb|]. split; [now exists signature|].
  split; [reflexivity|].
  intros Hsorted. cbn [Requests.wire_body Requests.json].
  now rewrite (dumps_key_sorted _ Hsorted).
Qed.

(** C4: a response with status 401, whatever its body, makes
    [_make_request] raise an [AuthenticationError] with status code 401,
    the fixed message and no error code. *)
Theorem C4_status_401_raises_AuthenticationError
    (self : ArchetypeClient) (w : world) (method path : Py.str)
    (params json_data : option Json.dict)
    (request : Requests.Request) (response : Requests.Response) :
  prepare case_table self w.(clock) method path params json_data = Return request ->
  w.(network) request = Requests.Responded response ->
  response.(Requests.status_code) = 401%Z ->
  _make_request case_table self w method path params json_data
  = Raise (ApiError
      {| class := ClassAuthenticationError;
         message :=
           Json.Str (Py.lit "Authentication failed: Invalid API key or signature");
         status_code := 401;
         error_code := Json.Null |}).
Proof.
  intros Hp Hn Hs. rewrite (make_request_responded _ _ _ _ _ _ _ _ Hp Hn).
  unfold handle. now rewrite Hs.
Qed.

(** A body that is not JSON, where the code decodes it, is reported as a
    failed request with status code 0. *)
Lemma malformed_body_is_request_failed
    (self : ArchetypeClient) (w : world) (method path : Py.str)
    (params json_data : option Json.dict)
    (request : Requests.Request) (response : Requests.Response)
    (description : Py.str) :
  prepare case_table self w.(clock) method path params json_data = Return request ->
  w.(network) request = Requests.Responded response ->
  response.(Requests.status_code) <> 401%Z ->
  (response.(Requests.status_code) < 400)%Z \/ response.(Requests.content) <> [] ->
  response.(Requests.json_body) = Requests.Malformed description ->
  _make_request case_table self w method path params json_data
  = Raise (ApiError
      {| class := ClassArchetypeAPIError;
         message := Json.Str (Py.lit "Request failed: " ++ description);
         status_code := 0;
         error_code := Json.Null |}).
Proof.
  intros Hp Hn Hne Hcase Hbody.
  rewrite (make_request_responded _ _ _ _ _ _ _ _ Hp Hn). unfold handle.
  destruct (Z.eqb_spec response.(Requests.status_code) 401) as [|_]; [contradiction|].
  rewrite Hbody.
  destruct (Z.leb_spec 400 response.(Requests.status_code)) as [Hge|_]; [|reflexivity].
  destruct Hcase as [Hlt|Hc]; [lia|].
  now destruct response.(Requests.content).
Qed.

(** Below 400 the decoded body is returned as it is. *)
Lemma success_returns_decoded_body
    (self : ArchetypeClient) (w : world) (method path : Py.str)
    (params json_data : option Json.dict)
    (request : Requests.Request) (response : Requests.Response) (v : Json.value) :
  prepare case_table self w.(clock) method path params json_data = Return request ->
  w.(network) request = Requests.Responded response ->
  (response.(Requests.status_code) < 400)%Z ->
  response.(Requests.json_body) = Requests.Parsed v ->
  _make_request case_table self w method path params json_data = Return v.
Proof.
  intros Hp Hn Hlt Hbody.
  rewrite (make_request_responded _ _ _ _ _ _ _ _ Hp Hn). unfold handle.
  destruct (Z.eqb_spec response.(Requests.status_code) 401) as [|_]; [lia|].
  destruct (Z.leb_spec 400 response.(Requests.status_code)) as [|_]; [lia|].
  now rewrite Hbody.
Qed.

(** A failure of the transport itself is reported with status code 0. *)
Lemma transport_failure_is_request_failed
    (self : ArchetypeClient) (w : world) (method path : Py.str)
    (params json_data : option Json.dict)
    (request : Requests.Request) (description : Py.str) :
  prepare case_table self w.(clock) method path params json_data = Return request ->
  w.(network) request = Requests.Failed description ->
  _make_request case_table self w method path params json_data
  = Raise (request_failed description).
Proof. intros Hp Hn. unfold _make_request. rewrite Hp. simpl. now rewrite Hn. Qed.

(** C5 (as amended): a response with a status of 400 or more other than
    401, whose body is empty or decodes to a JSON object, makes
    [_make_request] raise an [ArchetypeAPIError] (not the subclass) with the
    status of the response, the [errmsg] member of the decoded body as
    message when there is one and [API error: <status>] otherwise, and the
    [errorcode] member as error code when there is one and [None]
    otherwise; the decoded body of an empty body is the empty mapping. *)
Theorem C5_error_status_raises_ArchetypeAPIError
    (self : ArchetypeClient) (w : world) (method path : Py.str)
    (params json_data : option Json.dict)
    (request : Requests.Request) (response : Requests.Response)
    (error_data : Json.dict) :
  prepare case_table self w.(clock) method path params json_data = Return request ->
  w.(network) request = Requests.Responded response ->
  (400 <= response.(Requests.status_code))%Z ->
  response.(Requests.status_code) <> 401%Z ->
  (response.(Requests.content) = [] /\ error_data = []
   \/ response.(Requests.content) <> []
      /\ response.(Requests.json_body) = Requests.Parsed (Json.Obj error_data)) ->
  _make_request case_table self w method path params json_data
  = Raise (ApiError
      {| class := ClassArchetypeAPIError;
         message :=
           match Json.lookup error_data (Py.lit "errmsg") with
           | Some errmsg => errmsg
           | None =>
               Json.Str (Py.lit "API error: "
                         ++ Py.str_of_int response.(Requests.status_code))
           end;
         status_code := response.(Requests.status_code);
         error_code :=
           match Json.lookup error_data (Py.lit "errorcode") with
           | Some errorcode => errorcode
           | None => Json.Null
           end |}).
Proof.
  intros Hp Hn Hge Hne Hbody.
  rewrite (make_request_responded _ _ _ _ _ _ _ _ Hp Hn). unfold handle.
  destruct (Z.eqb_spec response.(Requests.status_code) 401) as [|_]; [contradiction|].
  destruct (Z.leb_spec 400 response.(Requests.status_code)) as [_|]; [|lia].
  destruct Hbody as [[-> ->]|[Hc ->]].
  - reflexivity.
  - destruct response.(Requests.content); [contradiction|].
    now rewrite !get_lookup.
Qed.

(** C6: two bodies that are the same mapping up to the order of the keys,
    at every depth, have the same canonical encoding, are signed as the
    same body, and get the same signature and the same headers when method,
    path, timestamp and secret are the same. *)
Theorem C6_key_order_does_not_change_the_signature
    (self : ArchetypeClient) (now : Z) (method path timestamp : Py.str)
    (d1 d2 : Json.dict) :
  Json.same_mapping (Json.Obj d1) (Json.Obj d2) ->
  Json.well_formed (Json.Obj d1) = true ->
  Json.dumps true (Json.Obj d1) = Json.dumps true (Json.Obj d2)
  /\ body_str (Some d1) = body_str (Some d2)
  /\ _generate_signature case_table self method path timestamp (body_str (Some d1))
     = _generate_signature case_table self method path timestamp (body_str (Some d2))
  /\ _get_headers case_table self now method path (body_str (Some d1))
     = _get_headers case_table self now method path (body_str (Some d2)).
Proof.
  intros Hsame Hwf.
  pose proof (dumps_sorted_same _ _ Hsame Hwf) as Hdumps.
  assert (body_str (Some d1) = body_str (Some d2)) as Hbody.
  { unfold body_str, dict_truthy. rewrite Hdumps.
    inversion Hsame as [| | | | |? ? reordered HP HF]; subst.
    destruct HF.
    - apply Permutation_sym, Permutation_nil in HP. now subst.
    - destruct d2; [|reflexivity].
      now apply Permutation_nil in HP. }
  rewrite Hbody. auto.
Qed.

(** C8: the query parameters reach the request untouched and nothing else
    of it depends on them: two calls that differ in [params] alone hand
    [requests] the same URL, body and headers, with the same [X-Signature],
    which is the signature of method, path, timestamp and body. *)
Theorem C8_params_do_not_change_the_signature
    (self : ArchetypeClient) (now : Z) (method path : Py.str)
    (params1 params2 json_data : option Json.dict) :
  match prepare case_table self now method path params1 json_data,
        prepare case_table self now method path params2 json_data with
  | Return r1, Return r2 =>
      r1.(Requests.params) = params1 /\ r2.(Requests.params) = params2
      /\ r1.(Requests.headers) = r2.(Requests.headers)
      /\ r1.(Requests.url) = r2.(Requests.url)
      /\ r1.(Requests.json) = r2.(Requests.json)
      /\ exists signature,
           _generate_signature case_table self method path (Py.str_of_int now)
             (body_str json_data) = Return signature
           /\ Requests.header (Py.lit "X-Signature") r1.(Requests.headers)
              = Some signature
           /\ Requests.header (Py.lit "X-Signature") r2.(Requests.headers)
              = Some signature
  | Raise e1, Raise e2 => e1 = e2
  | _, _ => False
  end.
Proof.
  unfold prepare, _get_headers, bind.
  destruct (_generate_signature _ _ _ _ _ _) as [signature|e]; [|reflexivity].
  cbn [Requests.params Requests.headers Requests.url Requests.json].
  repeat split. now exists signature.
Qed.

(** C9: the constructor keeps the base URL without its trailing slashes
    (what is kept ends in no slash, and only slashes were dropped), and the
    URL of every request is that base URL followed by the path, with no
    further normalisation. *)
Theorem C9_url_is_normalized_base_then_path
    (base_url0 api_key0 api_secret0 : Py.str) (timeout0 now : Z)
    (method path : Py.str) (params json_data : option Json.dict)
    (request : Requests.Request) :
  prepare case_table (__init__ base_url0 api_key0 api_secret0 timeout0)
          now method path params json_data = Return request ->
  let self := __init__ base_url0 api_key0 api_secret0 timeout0 in
  self.(base_url) = Py.rstrip 47 base_url0
  /\ (exists n, base_url0 = self.(base_url) ++ repeat 47 n)
  /\ (forall pre, self.(base_url) <> pre ++ [47])
  /\ ((forall pre, base_url0 <> pre ++ [47]) -> self.(base_url) = base_url0)
  /\ (forall stem, (forall pre, stem <> pre ++ [47]) ->
        base_url0 = stem ++ [47] -> self.(base_url) = stem)
  /\ request.(Requests.url) = self.(base_url) ++ path.
Proof.
  intros Hp self.
  destruct (prepare_inv _ _ _ _ _ _ _ Hp) as (signature & _ & ->).
  cbn [Requests.url]. subst self. cbn [__init__ base_url].
  repeat split.
  - apply rstrip_suffix.
  - apply rstrip_no_trailing.
  - apply rstrip_fixed.
  - intros stem Hstem ->. revert Hstem. clear.
    induction stem as [|x stem IH]; intros Hstem; [reflexivity|].
    cbn [app Py.rstrip]. rewrite IH.
    + destruct stem as [|y stem']; [|reflexivity].
      destruct (N.eqb_spec x 47) as [->|]; [|reflexivity].
      now destruct (Hstem []).
    + intros pre ->. now apply (Hstem (x :: pre)).
Qed.

End Transport.

(** ** The claims at concrete inputs *)

(** C1 as stated fails at [json_data = {"b": 1, "a": 2}]: the text that is
    signed is [{"a": 2, "b": 1}], the bytes that are sent are
    [{"b": 1, "a": 2}]. *)
Lemma C1_counterexample_key_order :
  match prepare Py.no_case Sample.client 1700000000 (Py.lit "POST") (Py.lit "/x")
                None (Some Sample.b_then_a) with
  | Return request =>
      body_str (Some Sample.b_then_a)
      = Some (Json.dumps false (Json.Obj Sample.a_then_b))
      /\ Requests.wire_body request
         = Py.encode_utf8 (Json.dumps false (Json.Obj Sample.b_then_a))
      /\ match body_str (Some Sample.b_then_a) with
         | Some signed => Py.encode_utf8 signed <> Requests.wire_body request
         | None => False
         end
  | Raise _ => False
  end.
Proof. vm_compute. repeat split. discriminate. Qed.

(** The empty dict is sent as [{}] and signed as no body. *)
Lemma empty_dict_is_sent_but_not_signed :
  match prepare Py.no_case Sample.client 1700000000 (Py.lit "POST") (Py.lit "/x")
                None (Some []) with
  | Return request =>
      body_str (Some []) = None
      /\ Requests.wire_body request = Some [123; 125]
      /\ Requests.header (Py.lit "X-Signature") request.(Requests.headers)
         = match _generate_signature Py.no_case Sample.client (Py.lit "POST")
                   (Py.lit "/x") Sample.timestamp None with
           | Return signature => Some signature
           | Raise _ => None
           end
  | Raise _ => False
  end.
Proof. vm_compute. repeat split. Qed.

(** C2 as stated fails for the empty string as body: the digest returned
    is not the HMAC of [GET|/p|1700000000|]. *)
Lemma C2_counterexample_empty_body :
  _generate_signature Py.no_case Sample.client (Py.lit "GET") (Py.lit "/p")
    Sample.timestamp (Some [])
  <> claimed_signature Py.no_case Sample.client.(api_secret) (Py.lit "GET")
       (Py.lit "/p") Sample.timestamp (Some []).
Proof. vm_compute. discriminate. Qed.

(** C3 as stated fails for two methods that differ in case alone. *)
Lemma C3_counterexample_method_case :
  differ_in_exactly_one
    Sample.client.(api_secret) (Py.lit "get") (Py.lit "/p") Sample.timestamp None
    Sample.client.(api_secret) (Py.lit "GET") (Py.lit "/p") Sample.timestamp None
  /\ _generate_signature Py.no_case Sample.client (Py.lit "get") (Py.lit "/p")
       Sample.timestamp None
     = _generate_signature Py.no_case Sample.client (Py.lit "GET") (Py.lit "/p")
         Sample.timestamp None
  /\ _generate_signature Py.no_case Sample.client (Py.lit "GET") (Py.lit "/p")
       Sample.timestamp None
     = Return
         (Py.lit "6aef0a21d386c5509fd8cc5bbb1b76679f7768f458a512977c8c2abfaee26614").
Proof.
  split; [|split; [reflexivity|vm_compute; reflexivity]].
  right; left. repeat split. discriminate.
Qed.

(** Two secrets that differ by a trailing NUL give the same digest: HMAC
    pads a short key with zeros. *)
Lemma secret_zero_padding_same_digest :
  let padded := __init__ [] [] (Py.lit "s3cret" ++ [0]) 30 in
  padded.(api_secret) <> Sample.client.(api_secret)
  /\ _generate_signature Py.no_case padded (Py.lit "GET") (Py.lit "/p")
       Sample.timestamp None
     = _generate_signature Py.no_case Sample.client (Py.lit "GET") (Py.lit "/p")
         Sample.timestamp None.
Proof. split; [discriminate|]. vm_compute. reflexivity. Qed.

(** ** Instances *)

Lemma C1_witness :
  Sample.a_then_b <> []
  /\ prepare Py.no_case Sample.client 1700000000 (Py.lit "POST") (Py.lit "/x")
       None (Some Sample.a_then_b) = Return Sample.post_x
  /\ body_str (Some Sample.a_then_b)
     = Some (Json.dumps true (Json.Obj Sample.a_then_b))
  /\ (exists signature,
        _generate_signature Py.no_case Sample.client (Py.lit "POST") (Py.lit "/x")
          (Py.str_of_int 1700000000)
          (Some (Json.dumps true (Json.Obj Sample.a_then_b))) = Return signature
        /\ Requests.header (Py.lit "X-Signature") Sample.post_x.(Requests.headers)
           = Some signature)
  /\ Requests.wire_body Sample.post_x
     = Py.encode_utf8 (Json.dumps false (Json.Obj Sample.a_then_b))
  /\ (Json.key_sorted (Json.Obj Sample.a_then_b) = true ->
      Py.encode_utf8 (Json.dumps true (Json.Obj Sample.a_then_b))
      = Requests.wire_body Sample.post_x).
Proof.
  assert (prepare Py.no_case Sample.client 1700000000 (Py.lit "POST") (Py.lit "/x")
            None (Some Sample.a_then_b) = Return Sample.post_x) as Hp
    by (vm_compute; reflexivity).
  split; [discriminate|]. split; [exact Hp|].
  apply (C1_signed_body_is_sorted_sent_body_is_as_inserted Py.no_case Sample.client
           1700000000 (Py.lit "POST") (Py.lit "/x") None Sample.a_then_b
           Sample.post_x); [discriminate|exact Hp].
Defined.

(** The keys of [a_then_b] are in order, those of [b_then_a] are not. *)
Example key_sorted_samples :
  Json.key_sorted (Json.Obj Sample.a_then_b) = true
  /\ Json.key_sorted (Json.Obj Sample.b_then_a) = false.
Proof. split; reflexivity. Qed.

Lemma C3_witness :
  differ_in_exactly_one
    Sample.client.(api_secret) (Py.upper Py.no_case (Py.lit "get"))
      (Py.lit "/p") Sample.timestamp (nonempty_body None)
    Sample.client.(api_secret) (Py.upper Py.no_case (Py.lit "get"))
      (Py.lit "/q") Sample.timestamp (nonempty_body None)
  /\ exists key1 msg1 key2 msg2,
       Py.encode_utf8 Sample.client.(api_secret) = Some key1
       /\ Py.encode_utf8 (signing_message Py.no_case (Py.lit "get") (Py.lit "/p")
                            Sample.timestamp None) = Some msg1
       /\ Py.encode_utf8 Sample.client.(api_secret) = Some key2
       /\ Py.encode_utf8 (signing_message Py.no_case (Py.lit "get") (Py.lit "/q")
                            Sample.timestamp None) = Some msg2
       /\ Py.lit "6aef0a21d386c5509fd8cc5bbb1b76679f7768f458a512977c8c2abfaee26614"
          = Hmac.hexdigest key1 msg1
       /\ Py.lit "975d2a4bc33a13af3a934a8cd27a60347eaaad3741543b8b923a9a66e0833800"
          = Hmac.hexdigest key2 msg2
       /\ (key1, msg1) <> (key2, msg2).
Proof.
  assert (differ_in_exactly_one
            Sample.client.(api_secret) (Py.upper Py.no_case (Py.lit "get"))
              (Py.lit "/p") Sample.timestamp (nonempty_body None)
            Sample.client.(api_secret) (Py.upper Py.no_case (Py.lit "get"))
              (Py.lit "/q") Sample.timestamp (nonempty_body None)) as Hdiff.
  { right; right; left. repeat split. discriminate. }
  split; [exact Hdiff|].
  apply (C3_one_change_changes_the_hmac_input Py.no_case Sample.client Sample.client
           (Py.lit "get") (Py.lit "/p") Sample.timestamp None
           (Py.lit "get") (Py.lit "/q") Sample.timestamp None);
    [exact Hdiff|vm_compute; reflexivity|vm_compute; reflexivity].
Defined.

Lemma C4_witness :
  prepare Py.no_case Sample.client
    (Sample.answering 401 (Py.lit "<html>") (Requests.Malformed Sample.no_json)).(clock)
    (Py.lit "GET") (Py.lit "/x") None None = Return Sample.get_x
  /\ _make_request Py.no_case Sample.client
       (Sample.answering 401 (Py.lit "<html>") (Requests.Malformed Sample.no_json))
       (Py.lit "GET") (Py.lit "/x") None None
     = Raise (ApiError
         {| class := ClassAuthenticationError;
            message :=
              Json.Str (Py.lit "Authentication failed: Invalid API key or signature");
            status_code := 401;
            error_code := Json.Null |}).
Proof.
  assert (prepare Py.no_case Sample.client 1700000000 (Py.lit "GET") (Py.lit "/x")
            None None = Return Sample.get_x) as Hp by (vm_compute; reflexivity).
  split; [exact Hp|].
  apply (C4_status_401_raises_AuthenticationError Py.no_case Sample.client
           (Sample.answering 401 (Py.lit "<html>") (Requests.Malformed Sample.no_json))
           (Py.lit "GET") (Py.lit "/x") None None Sample.get_x
           {| Requests.status_code := 401;
              Requests.content := Py.lit "<html>";
              Requests.json_body := Requests.Malformed Sample.no_json |});
    [exact Hp|reflexivity|reflexivity].
Defined.

(** A 404 with body [{"errmsg": "not found", "errorcode": 42}]. *)
Lemma C5_witness :
  prepare Py.no_case Sample.client
    (Sample.answering 404 [123] (Requests.Parsed (Json.Obj Sample.not_found))).(clock)
    (Py.lit "GET") (Py.lit "/x") None None = Return Sample.get_x
  /\ _make_request Py.no_case Sample.client
       (Sample.answering 404 [123] (Requests.Parsed (Json.Obj Sample.not_found)))
       (Py.lit "GET") (Py.lit "/x") None None
     = Raise (ApiError
         {| class := ClassArchetypeAPIError;
            message := Json.Str (Py.lit "not found");
            status_code := 404;
            error_code := Json.Int 42 |}).
Proof.
  assert (prepare Py.no_case Sample.client 1700000000 (Py.lit "GET") (Py.lit "/x")
            None None = Return Sample.get_x) as Hp by (vm_compute; reflexivity).
  split; [exact Hp|].
  apply (C5_error_status_raises_ArchetypeAPIError Py.no_case Sample.client
           (Sample.answering 404 [123] (Requests.Parsed (Json.Obj Sample.not_found)))
           (Py.lit "GET") (Py.lit "/x") None None Sample.get_x
           {| Requests.status_code := 404;
              Requests.content := [123];
              Requests.json_body := Requests.Parsed (Json.Obj Sample.not_found) |}
           Sample.not_found);
    [exact Hp|reflexivity|discriminate|discriminate|right; split; [discriminate|reflexivity]].
Defined.

(** A 500 with an empty body. *)
Lemma empty_error_body_gives_default_message :
  _make_request Py.no_case Sample.client
    (Sample.answering 500 [] (Requests.Malformed Sample.no_json))
    (Py.lit "GET") (Py.lit "/x") None None
  = Raise (ApiError
      {| class := ClassArchetypeAPIError;
         message := Json.Str (Py.lit "API error: 500");
         status_code := 500;
         error_code := Json.Null |}).
Proof. vm_compute. reflexivity. Qed.

(** C5 as stated fails for a 502 whose body is an HTML page: the error
    raised has status code 0, not 502. *)
Lemma C5_counterexample_malformed_body :
  let result :=
    _make_request Py.no_case Sample.client
      (Sample.answering 502 (Py.lit "<html>") (Requests.Malformed Sample.no_json))
      (Py.lit "GET") (Py.lit "/x") None None in
  result = Raise (ApiError
             {| class := ClassArchetypeAPIError;
                message := Json.Str (Py.lit "Request failed: " ++ Sample.no_json);
                status_code := 0;
                error_code := Json.Null |})
  /\ forall e, result = Raise (ApiError e) -> e.(status_code) <> 502%Z.
Proof.
  vm_compute. split; [reflexivity|].
  intros e H. injection H as <-. discriminate.
Qed.

(** A body that decodes to something other than an object has no [get]. *)
Lemma non_object_error_body_raises_AttributeError :
  _make_request Py.no_case Sample.client
    (Sample.answering 500 [91; 93] (Requests.Parsed (Json.Arr [])))
    (Py.lit "GET") (Py.lit "/x") None None
  = Raise AttributeError.
Proof. vm_compute. reflexivity. Qed.

Lemma C6_witness :
  Json.same_mapping (Json.Obj Sample.nested1) (Json.Obj Sample.nested2)
  /\ Json.well_formed (Json.Obj Sample.nested1) = true
  /\ Json.dumps true (Json.Obj Sample.nested1) = Json.dumps true (Json.Obj Sample.nested2)
  /\ body_str (Some Sample.nested1) = body_str (Some Sample.nested2)
  /\ _generate_signature Py.no_case Sample.client (Py.lit "POST") (Py.lit "/x")
       Sample.timestamp (body_str (Some Sample.nested1))
     = _generate_signature Py.no_case Sample.client (Py.lit "POST") (Py.lit "/x")
         Sample.timestamp (body_str (Some Sample.nested2))
  /\ _get_headers Py.no_case Sample.client 1700000000 (Py.lit "POST") (Py.lit "/x")
       (body_str (Some Sample.nested1))
     = _get_headers Py.no_case Sample.client 1700000000 (Py.lit "POST") (Py.lit "/x")
         (body_str (Some Sample.nested2)).
Proof.
  assert (Json.same_mapping (Json.Obj Sample.nested1) (Json.Obj Sample.nested2))
    as Hsame.
  { apply Json.SameObj with
      (reordered :=
         [(Py.lit "b", Json.Int 1);
          (Py.lit "a", Json.Obj [(Py.lit "x", Json.Arr []); (Py.lit "y", Json.Null)])]).
    - apply perm_swap.
    - repeat constructor.
      apply Json.SameObj with
        (reordered := [(Py.lit "y", Json.Null); (Py.lit "x", Json.Arr [])]).
      + apply perm_swap.
      + repeat constructor. }
  split; [exact Hsame|]. split; [reflexivity|].
  apply (C6_key_order_does_not_change_the_signature Py.no_case Sample.client
           1700000000 (Py.lit "POST") (Py.lit "/x") Sample.timestamp
           Sample.nested1 Sample.nested2 Hsame eq_refl).
Defined.

Lemma C7_witness :
  Sample.client.(api_secret) = Sample.other_client.(api_secret)
  /\ _generate_signature Py.no_case Sample.client (Py.lit "GET") (Py.lit "/p")
       Sample.timestamp None
     = _generate_signature Py.no_case Sample.other_client (Py.lit "GET") (Py.lit "/p")
         Sample.timestamp None.
Proof.
  split; [reflexivity|].
  apply (C7_signature_is_a_function_of_its_inputs Py.no_case Sample.client
           Sample.other_client (Py.lit "GET") (Py.lit "/p") Sample.timestamp None).
  reflexivity.
Defined.

Lemma C9_witness :
  prepare Py.no_case
    (__init__ (Py.lit "https://api.example.com/") (Py.lit "key") (Py.lit "s3cret") 30)
    1700000000 (Py.lit "GET") (Py.lit "/x") None None = Return Sample.get_x
  /\ let self :=
       __init__ (Py.lit "https://api.example.com/") (Py.lit "key")
                (Py.lit "s3cret") 30 in
     self.(base_url) = Py.rstrip 47 (Py.lit "https://api.example.com/")
     /\ (exists n, Py.lit "https://api.example.com/" = self.(base_url) ++ repeat 47 n)
     /\ (forall pre, self.(base_url) <> pre ++ [47])
     /\ ((forall pre, Py.lit "https://api.example.com/" <> pre ++ [47]) ->
         self.(base_url) = Py.lit "https://api.example.com/")
     /\ (forall stem, (forall pre, stem <> pre ++ [47]) ->
           Py.lit "https://api.example.com/" = stem ++ [47] ->
           self.(base_url) = stem)
     /\ Sample.get_x.(Requests.url) = self.(base_url) ++ Py.lit "/x".
Proof.
  assert (prepare Py.no_case
            (__init__ (Py.lit "https://api.example.com/") (Py.lit "key")
                      (Py.lit "s3cret") 30)
            1700000000 (Py.lit "GET") (Py.lit "/x") None None = Return Sample.get_x)
    as Hp by (vm_compute; reflexivity).
  split; [exact Hp|].
  exact (C9_url_is_normalized_base_then_path Py.no_case
           (Py.lit "https://api.example.com/") (Py.lit "key") (Py.lit "s3cret") 30
           1700000000 (Py.lit "GET") (Py.lit "/x") None None Sample.get_x Hp).
Defined.

(** Every trailing slash goes, not only the last one. *)
Lemma rstrip_takes_every_trailing_slash :
  (__init__ (Py.lit "https://api.example.com//") [] [] 30).(base_url)
  = Py.lit "https://api.example.com".
Proof. reflexivity. Qed.

(** * Further properties of the client *)

(** ** ASCII text *)

Lemma printable_ascii_app (s t : Py.str) :
  Format.printable_ascii (s ++ t) = Format.printable_ascii s && Format.printable_ascii t.
Proof. apply forallb_app. Qed.

Lemma printable_ascii_join (sep : Py.str) (parts : list Py.str) :
  Format.printable_ascii sep = true ->
  Forall (fun p => Format.printable_ascii p = true) parts ->
  Format.printable_ascii (Py.join sep parts) = true.
Proof.
  intros Hsep. induction 1 as [|p parts Hp Hparts IH]; [reflexivity|].
  destruct parts as [|q parts]; [exact Hp|].
  change (Py.join sep (p :: q :: parts)) with (p ++ sep ++ Py.join sep (q :: parts)).
  now rewrite !printable_ascii_app, Hp, Hsep, IH.
Qed.

Lemma printable_ascii_is_ascii (s : Py.str) :
  Format.printable_ascii s = true -> Format.ascii s = true.
Proof.
  unfold Format.printable_ascii, Format.ascii. rewrite !forallb_forall.
  intros H c Hc. specialize (H c Hc). apply andb_prop in H as [_ H].
  apply N.leb_le in H. apply N.ltb_lt. lia.
Qed.

Lemma encode_utf8_ascii (s : Py.str) :
  Format.ascii s = true -> Py.encode_utf8 s = Some s.
Proof.
  induction s as [|c s IH]; [reflexivity|].
  cbn [Format.ascii forallb]. intros H. apply andb_prop in H as [Hc Hs].
  cbn [Py.encode_utf8]. unfold Py.utf8_char.
  change (c <? 128) with (c <? 0x80) in Hc. rewrite Hc.
  unfold Format.ascii in IH. now rewrite (IH Hs).
Qed.


Lemma string_of_uint_printable (d : Decimal.uint) :
  Format.printable_ascii (Py.lit (NilEmpty.string_of_uint d)) = true.
Proof. induction d; [reflexivity|exact IHd..]. Qed.

Lemma string_of_uint_zero_printable (d : Decimal.uint) :
  Format.printable_ascii (Py.lit (NilZero.string_of_uint d)) = true.
Proof.
  destruct d; [reflexivity|..];
    match goal with |- context [NilZero.string_of_uint ?x] =>
      exact (string_of_uint_printable x) end.
Qed.

Lemma str_of_int_printable (n : Z) : Format.printable_ascii (Py.str_of_int n) = true.
Proof.
  unfold Py.str_of_int, NilZero.string_of_int.
  destruct (Z.to_int n) as [d|d]; [apply string_of_uint_zero_printable|].
  change (Format.printable_ascii (45 :: Py.lit (NilZero.string_of_uint d)) = true).
  cbn [Format.printable_ascii forallb].
  exact (string_of_uint_zero_printable d).
Qed.

Lemma hex_digit_printable (d : N) : Format.printable_ascii [Hmac.hex_digit d] = true.
Proof.
  pose proof (hex_digit_lower d) as H. unfold Hmac.lower_hex in H.
  cbn [Format.printable_ascii forallb]. rewrite andb_true_r.
  apply orb_prop in H as [H|H]; apply andb_prop in H as [H1 H2];
    apply N.leb_le in H1, H2; apply andb_true_intro; split; apply N.leb_le; lia.
Qed.

Lemma hex4_printable (n : N) : Format.printable_ascii (Json.hex4 n) = true.
Proof.
  unfold Json.hex4.
  change (Format.printable_ascii
            ([Hmac.hex_digit (n / 4096 mod 16)] ++ [Hmac.hex_digit (n / 256 mod 16)]
             ++ [Hmac.hex_digit (n / 16 mod 16)] ++ [Hmac.hex_digit (n mod 16)]) = true).
  now rewrite !printable_ascii_app, !hex_digit_printable.
Qed.

Lemma escape_char_printable (c : N) : Format.printable_ascii (Json.escape_char c) = true.
Proof.
  unfold Json.escape_char, Json.u_escape.
  repeat match goal with
    | |- context [if ?b then _ else _] => destruct b eqn:?
    end; try reflexivity;
    rewrite ?printable_ascii_app, ?hex4_printable; try reflexivity.
  cbn [Format.printable_ascii forallb]. now rewrite andb_true_r.
Qed.

Lemma encode_basestring_ascii_printable (s : Py.str) :
  Format.printable_ascii (Json.encode_basestring_ascii s) = true.
Proof.
  unfold Json.encode_basestring_ascii.
  change (34 :: flat_map Json.escape_char s ++ [34])
    with ([34] ++ flat_map Json.escape_char s ++ [34]).
  rewrite !printable_ascii_app. cbn.
  rewrite andb_true_r.
  induction s as [|c s IH]; [reflexivity|].
  cbn [flat_map]. now rewrite printable_ascii_app, escape_char_printable, IH.
Qed.

Lemma insert_item_Forall {A : Type} (Q : Py.str * A -> Prop)
    (a : Py.str * A) (l : list (Py.str * A)) :
  Q a -> Forall Q l -> Forall Q (Json.insert_item a l).
Proof.
  intros Ha. induction 1 as [|x l Hx Hl IH]; cbn [Json.insert_item].
  - now repeat constructor.
  - destruct (Py.str_leb (fst a) (fst x)); repeat constructor; assumption.
Qed.

Lemma sort_items_Forall {A : Type} (Q : Py.str * A -> Prop) (l : list (Py.str * A)) :
  Forall Q l -> Forall Q (Json.sort_items l).
Proof.
  induction 1 as [|x l Hx Hl IH]; [constructor|].
  rewrite sort_items_cons. now apply insert_item_Forall.
Qed.

(** [json.dumps] writes printable ASCII only, whatever the data. *)
Lemma dumps_printable (sort_keys : bool) (v : Json.value) :
  Format.printable_ascii (Json.dumps sort_keys v) = true.
Proof.
  induction v as [|b|n|s|items IH|members IH] using value_ind_deep.
  - reflexivity.
  - now destruct b.
  - apply str_of_int_printable.
  - apply encode_basestring_ascii_printable.
  - cbn [Json.dumps]. rewrite !printable_ascii_app.
    rewrite printable_ascii_join; [reflexivity|reflexivity|].
    now apply Forall_map.
  - rewrite dumps_obj_rendered. cbv zeta. rewrite !printable_ascii_app.
    rewrite printable_ascii_join; [reflexivity|reflexivity|].
    apply Forall_map.
    assert (Forall (fun kr : Py.str * Py.str =>
                      Format.printable_ascii (Json.render_item kr) = true)
                   (map (fun kv => (fst kv, Json.dumps sort_keys (snd kv))) members))
      as Hall.
    { apply Forall_map. eapply Forall_impl; [|exact IH].
      intros [k x] Hx. unfold Json.render_item. cbn [fst snd] in *.
      now rewrite !printable_ascii_app, encode_basestring_ascii_printable, Hx. }
    destruct sort_keys; [now apply sort_items_Forall|exact Hall].
Qed.

Lemma encode_utf8_app (s t : Py.str) :
  Py.encode_utf8 (s ++ t)
  = match Py.encode_utf8 s, Py.encode_utf8 t with
    | Some a, Some b => Some (a ++ b)
    | _, _ => None
    end.
Proof.
  induction s as [|c s IH]; cbn [app Py.encode_utf8].
  - now destruct (Py.encode_utf8 t).
  - rewrite IH. destruct (Py.utf8_char c) as [bc|]; [|reflexivity].
    destruct (Py.encode_utf8 s) as [a|], (Py.encode_utf8 t) as [b|];
      try reflexivity. now rewrite app_assoc.
Qed.

Lemma dumps_obj_nonempty (sort_keys : bool) (d : Json.dict) :
  exists rest, Json.dumps sort_keys (Json.Obj d) = 123 :: rest.
Proof. rewrite dumps_obj. eexists. reflexivity. Qed.

(** ** The body and the message of a request *)

Section RequestBody.

Variable case_table : N -> list N.

(** X1: the text [_make_request] signs for a JSON body is never empty and
    is printable ASCII, so it is its own UTF-8 encoding and the signer
    never drops it; nothing is signed for [None] and for the empty dict. *)
Theorem signed_body_is_nonempty_printable_ascii (json_data : option Json.dict) :
  match body_str json_data with
  | Some b =>
      (exists d, json_data = Some d /\ d <> [] /\ b = Json.dumps true (Json.Obj d))
      /\ b <> []
      /\ Format.printable_ascii b = true
      /\ Py.encode_utf8 b = Some b
      /\ nonempty_body (Some b) = Some b
  | None => json_data = None \/ json_data = Some []
  end.
Proof.
  destruct json_data as [[|kv d]|]; cbn [body_str dict_truthy]; auto.
  destruct (dumps_obj_nonempty true (kv :: d)) as [rest E].
  split; [|split; [|split; [|split]]].
  - exists (kv :: d). split; [reflexivity|]. split; [discriminate|reflexivity].
  - rewrite E. discriminate.
  - apply dumps_printable.
  - apply encode_utf8_ascii, printable_ascii_is_ascii, dumps_printable.
  - now rewrite E.
Qed.

(** The message signed for a request has its fourth part exactly when
    the JSON body is a non-empty dict, and that part is the sorted-key
    encoding of the body. *)
Lemma request_message_has_body_iff_nonempty_dict
    (method path timestamp : Py.str) (json_data : option Json.dict) :
  signing_message case_table method path timestamp (body_str json_data)
  = Py.upper case_table method ++ Py.lit "|" ++ path ++ Py.lit "|" ++ timestamp
    ++ match json_data with
       | Some (kv :: d) => Py.lit "|" ++ Json.dumps true (Json.Obj (kv :: d))
       | _ => []
       end.
Proof.
  rewrite signing_message_flat.
  destruct json_data as [[|kv d]|]; cbn [body_str dict_truthy nonempty_body];
    reflexivity.
Qed.



End RequestBody.

(** ** What a call returns and what it raises *)

Section Outcomes.

Variable case_table : N -> list N.

Lemma make_request_inv (self : ArchetypeClient) (w : world) (method path : Py.str)
    (params json_data : option Json.dict) (r : result Json.value) :
  _make_request case_table self w method path params json_data = r ->
  (exists e, prepare case_table self w.(clock) method path params json_data = Raise e
             /\ r = Raise e)
  \/ (exists request,
        prepare case_table self w.(clock) method path params json_data = Return request
        /\ ((exists description,
               w.(network) request = Requests.Failed description
               /\ r = Raise (request_failed description))
            \/ (exists response,
                  w.(network) request = Requests.Responded response
                  /\ r = handle response))).
Proof.
  unfold _make_request. intros <-.
  destruct (prepare _ _ _ _ _ _ _) as [request|e]; cbn [bind]; [right|left; eauto].
  exists request. split; [reflexivity|].
  destruct (network w request) as [response|description]; [right|left]; eauto.
Qed.

Lemma prepare_raises_UnicodeEncodeError (self : ArchetypeClient) (now : Z)
    (method path : Py.str) (params json_data : option Json.dict) (e : exn) :
  prepare case_table self now method path params json_data = Raise e ->
  e = UnicodeEncodeError.
Proof.
  unfold prepare, _get_headers, _generate_signature, bind.
  destruct (Py.encode_utf8 self.(api_secret)); [|congruence].
  destruct (Py.encode_utf8 _); congruence.
Qed.

(** X3: a value is returned only for a response with a status below 400
    whose body decodes, and it is that decoded body: nothing is ever
    returned from a failed transport or from an error response. *)
Theorem returned_value_is_the_decoded_body_of_a_success
    (self : ArchetypeClient) (w : world) (method path : Py.str)
    (params json_data : option Json.dict) (v : Json.value) :
  _make_request case_table self w method path params json_data = Return v ->
  exists request response,
    prepare case_table self w.(clock) method path params json_data = Return request
    /\ w.(network) request = Requests.Responded response
    /\ (response.(Requests.status_code) < 400)%Z
    /\ response.(Requests.json_body) = Requests.Parsed v.
Proof.
  intros H. apply make_request_inv in H.
  destruct H as [(e & _ & H)|(request & Hp & [(d & _ & H)|(response & Hn & H)])];
    try discriminate.
  exists request, response. split; [exact Hp|]. split; [exact Hn|].
  unfold handle, request_failed in H.
  destruct (Z.eqb_spec response.(Requests.status_code) 401); [discriminate|].
  destruct (Z.leb_spec 400 response.(Requests.status_code)).
  - destruct response.(Requests.content);
      [discriminate|].
    destruct response.(Requests.json_body) as [[| | | | |]|]; discriminate.
  - split; [assumption|].
    destruct response.(Requests.json_body); [congruence|discriminate].
Qed.

(** X4: the client's own errors come in three kinds and no other: an
    [AuthenticationError] with status code 401 and the fixed message, for
    a response with status 401 and for nothing else; an
    [ArchetypeAPIError] with status code 0, no error code and a message
    that starts with [Request failed: ]; an [ArchetypeAPIError] that
    carries the status of an error response, which is 400 or more and
    never 401. *)
Theorem raised_errors_are_of_three_kinds
    (self : ArchetypeClient) (w : world) (method path : Py.str)
    (params json_data : option Json.dict) (e : api_error) :
  _make_request case_table self w method path params json_data = Raise (ApiError e) ->
  (e = AuthenticationError
         (Json.Str (Py.lit "Authentication failed: Invalid API key or signature"))
   /\ exists request response,
        prepare case_table self w.(clock) method path params json_data = Return request
        /\ w.(network) request = Requests.Responded response
        /\ response.(Requests.status_code) = 401%Z)
  \/ (exists description,
        e = ArchetypeAPIError (Json.Str (Py.lit "Request failed: " ++ description))
                              0 Json.Null)
  \/ (e.(class) = ClassArchetypeAPIError
      /\ (400 <= e.(status_code))%Z /\ e.(status_code) <> 401%Z
      /\ exists request response,
           prepare case_table self w.(clock) method path params json_data
           = Return request
           /\ w.(network) request = Requests.Responded response
           /\ response.(Requests.status_code) = e.(status_code)).
Proof.
  intros H. apply make_request_inv in H.
  destruct H as [(e' & Hp & H)|(request & Hp & [(d & _ & H)|(response & Hn & H)])].
  - apply prepare_raises_UnicodeEncodeError in Hp. congruence.
  - right; left. exists d. unfold request_failed in H. congruence.
  - unfold handle, request_failed in H.
    destruct (Z.eqb_spec response.(Requests.status_code) 401) as [E401|N401].
    { left. split; [congruence|]. now exists request, response. }
    destruct (Z.leb_spec 400 response.(Requests.status_code)) as [Hge|Hlt].
    + assert (forall d : Json.dict,
                Raise (ApiError
                  (ArchetypeAPIError
                     (Json.get d (Py.lit "errmsg")
                        (Json.Str (Py.lit "API error: "
                                   ++ Py.str_of_int response.(Requests.status_code))))
                     response.(Requests.status_code)
                     (Json.get d (Py.lit "errorcode") Json.Null)))
                = @Raise Json.value (ApiError e) ->
                e.(class) = ClassArchetypeAPIError
                /\ (400 <= e.(status_code))%Z /\ e.(status_code) <> 401%Z
                /\ exists request response,
                     prepare case_table self w.(clock) method path params json_data
                     = Return request
                     /\ w.(network) request = Requests.Responded response
                     /\ response.(Requests.status_code) = e.(status_code)) as Hobj.
      { intros d0 [= <-]. cbn [class status_code ArchetypeAPIError].
        repeat split; try assumption. now exists request, response. }
      destruct response.(Requests.content).
      * right; right. now apply (Hobj []).
      * destruct response.(Requests.json_body) as [[| | | | |d0]|d0];
          try discriminate.
        -- right; right. now apply (Hobj d0).
        -- right; left. exists d0. congruence.
    + destruct response.(Requests.json_body) as [v|d0]; [discriminate|].
      right; left. exists d0. congruence.
Qed.

(** X5: a response with a status below 400 whose body decodes makes
    [_make_request] return the decoded body as it is. *)
Theorem success_response_returns_its_decoded_body
    (self : ArchetypeClient) (w : world) (method path : Py.str)
    (params json_data : option Json.dict)
    (request : Requests.Request) (response : Requests.Response) (v : Json.value) :
  prepare case_table self w.(clock) method path params json_data = Return request ->
  w.(network) request = Requests.Responded response ->
  (response.(Requests.status_code) < 400)%Z ->
  response.(Requests.json_body) = Requests.Parsed v ->
  _make_request case_table self w method path params json_data = Return v.
Proof.
  intros Hp Hn Hlt Hbody. unfold _make_request. rewrite Hp. cbn [bind].
  rewrite Hn. unfold handle.
  destruct (Z.eqb_spec response.(Requests.status_code) 401) as [E|_]; [lia|].
  destruct (Z.leb_spec 400 response.(Requests.status_code)) as [Hge|_]; [lia|].
  now rewrite Hbody.
Qed.

(** X6: when [requests] raises a [RequestException], [_make_request]
    raises an [ArchetypeAPIError] with status code 0, no error code and the
    message [Request failed: ] followed by the text of the exception. *)
Theorem transport_failure_has_status_code_0
    (self : ArchetypeClient) (w : world) (method path : Py.str)
    (params json_data : option Json.dict)
    (request : Requests.Request) (description : Py.str) :
  prepare case_table self w.(clock) method path params json_data = Return request ->
  w.(network) request = Requests.Failed description ->
  _make_request case_table self w method path params json_data
  = Raise (ApiError
      {| class := ClassArchetypeAPIError;
         message := Json.Str (Py.lit "Request failed: " ++ description);
         status_code := 0;
         error_code := Json.Null |}).
Proof.
  intros Hp Hn. unfold _make_request. rewrite Hp. cbn [bind].
  rewrite Hn. reflexivity.
Qed.

(** X7: a body that is not JSON, in a response with a status below 400
    or in an error response (not 401) with a non-empty body, is reported
    as a failed request: an [ArchetypeAPIError] with status code 0, not
    with the status of the response. *)
Theorem body_that_is_not_json_has_status_code_0
    (self : ArchetypeClient) (w : world) (method path : Py.str)
    (params json_data : option Json.dict)
    (request : Requests.Request) (response : Requests.Response)
    (description : Py.str) :
  prepare case_table self w.(clock) method path params json_data = Return request ->
  w.(network) request = Requests.Responded response ->
  response.(Requests.status_code) <> 401%Z ->
  (response.(Requests.status_code) < 400)%Z \/ response.(Requests.content) <> [] ->
  response.(Requests.json_body) = Requests.Malformed description ->
  _make_request case_table self w method path params json_data
  = Raise (ApiError
      {| class := ClassArchetypeAPIError;
         message := Json.Str (Py.lit "Request failed: " ++ description);
         status_code := 0;
         error_code := Json.Null |}).
Proof.
  intros Hp Hn Hne Hcase Hbody. unfold _make_request. rewrite Hp. cbn [bind].
  rewrite Hn. unfold handle.
  destruct (Z.eqb_spec response.(Requests.status_code) 401) as [|_]; [contradiction|].
  rewrite Hbody.
  destruct (Z.leb_spec 400 response.(Requests.status_code)) as [Hge|_]; [|reflexivity].
  destruct Hcase as [Hlt|Hc]; [lia|].
  now destruct response.(Requests.content).
Qed.

(** X8: an error response (400 or more, not 401) whose body is not empty
    and decodes to a JSON value that is not an object makes
    [_make_request] raise [AttributeError], which is not one of the
    client's own errors. *)
Theorem error_body_that_is_no_object_raises_AttributeError
    (self : ArchetypeClient) (w : world) (method path : Py.str)
    (params json_data : option Json.dict)
    (request : Requests.Request) (response : Requests.Response) (v : Json.value) :
  prepare case_table self w.(clock) method path params json_data = Return request ->
  w.(network) request = Requests.Responded response ->
  (400 <= response.(Requests.status_code))%Z ->
  response.(Requests.status_code) <> 401%Z ->
  response.(Requests.content) <> [] ->
  response.(Requests.json_body) = Requests.Parsed v ->
  (forall d, v <> Json.Obj d) ->
  _make_request case_table self w method path params json_data = Raise AttributeError.
Proof.
  intros Hp Hn Hge Hne Hc Hbody Hv.
  rewrite (make_request_responded _ _ _ _ _ _ _ _ _ Hp Hn). unfold handle.
  destruct (Z.eqb_spec response.(Requests.status_code) 401) as [|_]; [contradiction|].
  destruct (Z.leb_spec 400 response.(Requests.status_code)) as [_|]; [|lia].
  destruct response.(Requests.content); [contradiction|].
  rewrite Hbody. destruct v; try reflexivity. now destruct (Hv members).
Qed.

End Outcomes.

(** ** The headers and the two read operations *)

Section ReadOperations.

Variable case_table : N -> list N.

(** X9: the headers are the five the server expects, each once, and they
    verify: the signature sent in [X-Signature] is the one the
    specification's formula gives for the key's secret, the method, the
    path, the body and the timestamp sent in [X-Timestamp]. *)
Theorem headers_carry_the_signed_timestamp
    (self : ArchetypeClient) (now : Z) (method path : Py.str)
    (body : option Py.str) (headers : list (Py.str * Py.str)) :
  _get_headers case_table self now method path body = Return headers ->
  map fst headers
  = [Py.lit "X-API-Key"; Py.lit "X-Timestamp"; Py.lit "X-Signature";
     Py.lit "Content-Type"; Py.lit "Accept"]
  /\ Requests.header (Py.lit "X-API-Key") headers = Some self.(api_key)
  /\ Requests.header (Py.lit "Content-Type") headers = Some (Py.lit "application/json")
  /\ Requests.header (Py.lit "Accept") headers = Some (Py.lit "application/json")
  /\ exists timestamp signature,
       Requests.header (Py.lit "X-Timestamp") headers = Some timestamp
       /\ Requests.header (Py.lit "X-Signature") headers = Some signature
       /\ timestamp = Py.str_of_int now
       /\ Format.printable_ascii timestamp = true
       /\ claimed_signature case_table self.(api_secret) method path timestamp
            (nonempty_body body) = Return signature.
Proof.
  unfold _get_headers, bind.
  destruct (_generate_signature _ _ _ _ _ _) as [signature|e] eqn:Hsig;
    [|discriminate].
  intros [= <-]. repeat split.
  exists (Py.str_of_int now), signature. repeat split.
  - apply str_of_int_printable.
  - now rewrite <- generate_signature_claimed.
Qed.

(** The request of a [GET] without parameters and body. *)
Lemma prepare_get (self : ArchetypeClient) (now : Z) (path : Py.str)
    (key path_bytes : Py.bytes) :
  Py.encode_utf8 self.(api_secret) = Some key ->
  Py.encode_utf8 path = Some path_bytes ->
  prepare case_table self now (Py.lit "GET") path None None
  = Return
      {| Requests.method := Py.lit "GET";
         Requests.url := self.(base_url) ++ path;
         Requests.headers :=
           [(Py.lit "X-API-Key", self.(api_key));
            (Py.lit "X-Timestamp", Py.str_of_int now);
            (Py.lit "X-Signature",
             Hmac.hexdigest key
               (Py.lit "GET|" ++ path_bytes ++ Py.lit "|" ++ Py.str_of_int now));
            (Py.lit "Content-Type", Py.lit "application/json");
            (Py.lit "Accept", Py.lit "application/json")];
         Requests.params := None;
         Requests.json := None;
         Requests.timeout := self.(timeout) |}.
Proof.
  intros Hk Hp. unfold prepare, _get_headers, _generate_signature.
  rewrite Hk, signing_message_flat. cbn [body_str nonempty_body].
  change (Py.upper case_table (Py.lit "GET") ++ Py.lit "|" ++ path ++ Py.lit "|"
          ++ Py.str_of_int now ++ [])
    with (Py.lit "GET|" ++ path ++ Py.lit "|" ++ Py.str_of_int now ++ []).
  rewrite app_nil_r, !encode_utf8_app, Hp.
  rewrite (encode_utf8_ascii (Py.str_of_int now))
    by apply printable_ascii_is_ascii, str_of_int_printable.
  reflexivity.
Qed.

(** X10: [get_strategy_archetypes(sid)] sends one [GET] to the base URL
    followed by [/internal/archetype/strategy/] and [sid] as it is, with no
    query and no body, signed over [GET|/internal/archetype/strategy/<sid>|<time>];
    when the answer has a status below 400, its decoded body is returned
    unchanged. *)
Theorem get_strategy_archetypes_returns_the_decoded_body
    (self : ArchetypeClient) (w : world) (sid : Py.str)
    (key sid_bytes : Py.bytes) (response : Requests.Response) (v : Json.value) :
  Py.encode_utf8 self.(api_secret) = Some key ->
  Py.encode_utf8 sid = Some sid_bytes ->
  w.(network)
    {| Requests.method := Py.lit "GET";
       Requests.url :=
         self.(base_url) ++ Py.lit "/internal/archetype/strategy/" ++ sid;
       Requests.headers :=
         [(Py.lit "X-API-Key", self.(api_key));
          (Py.lit "X-Timestamp", Py.str_of_int w.(clock));
          (Py.lit "X-Signature",
           Hmac.hexdigest key
             (Py.lit "GET|/internal/archetype/strategy/" ++ sid_bytes
              ++ Py.lit "|" ++ Py.str_of_int w.(clock)));
          (Py.lit "Content-Type", Py.lit "application/json");
          (Py.lit "Accept", Py.lit "application/json")];
       Requests.params := None;
       Requests.json := None;
       Requests.timeout := self.(timeout) |}
  = Requests.Responded response ->
  (response.(Requests.status_code) < 400)%Z ->
  response.(Requests.json_body) = Requests.Parsed v ->
  get_strategy_archetypes case_table self w sid = Return v.
Proof.
  intros Hk Hs Hn Hlt Hbody. unfold get_strategy_archetypes.
  assert (Py.encode_utf8 (Py.lit "/internal/archetype/strategy/" ++ sid)
          = Some (Py.lit "/internal/archetype/strategy/" ++ sid_bytes)) as Hpath
    by now rewrite encode_utf8_app, Hs.
  eapply success_returns_decoded_body; [apply (prepare_get _ _ _ _ _ Hk Hpath)| | |];
    [|exact Hlt|exact Hbody].
  rewrite <- Hn. do 4 f_equal.
Qed.

(** X11: [get_archetype(archepid)] sends one [GET] to the base URL followed
    by [/internal/archetype/] and [archepid] as it is, with no query and no
    body, signed over [GET|/internal/archetype/<archepid>|<time>]; when the
    answer has a status below 400, its decoded body is returned
    unchanged. *)
Theorem get_archetype_returns_the_decoded_body
    (self : ArchetypeClient) (w : world) (archepid : Py.str)
    (key id_bytes : Py.bytes) (response : Requests.Response) (v : Json.value) :
  Py.encode_utf8 self.(api_secret) = Some key ->
  Py.encode_utf8 archepid = Some id_bytes ->
  w.(network)
    {| Requests.method := Py.lit "GET";
       Requests.url := self.(base_url) ++ Py.lit "/internal/archetype/" ++ archepid;
       Requests.headers :=
         [(Py.lit "X-API-Key", self.(api_key));
          (Py.lit "X-Timestamp", Py.str_of_int w.(clock));
          (Py.lit "X-Signature",
           Hmac.hexdigest key
             (Py.lit "GET|/internal/archetype/" ++ id_bytes
              ++ Py.lit "|" ++ Py.str_of_int w.(clock)));
          (Py.lit "Content-Type", Py.lit "application/json");
          (Py.lit "Accept", Py.lit "application/json")];
       Requests.params := None;
       Requests.json := None;
       Requests.timeout := self.(timeout) |}
  = Requests.Responded response ->
  (response.(Requests.status_code) < 400)%Z ->
  response.(Requests.json_body) = Requests.Parsed v ->
  get_archetype case_table self w archepid = Return v.
Proof.
  intros Hk Hs Hn Hlt Hbody. unfold get_archetype.
  assert (Py.encode_utf8 (Py.lit "/internal/archetype/" ++ archepid)
          = Some (Py.lit "/internal/archetype/" ++ id_bytes)) as Hpath
    by now rewrite encode_utf8_app, Hs.
  eapply success_returns_decoded_body; [apply (prepare_get _ _ _ _ _ Hk Hpath)| | |];
    [|exact Hlt|exact Hbody].
  rewrite <- Hn. do 4 f_equal.
Qed.

(** X12: the identifiers are put in the path as they are, so an archetype
    identifier that starts with [strategy/] is the strategy request:
    [get_archetype("strategy/" + sid)] does what
    [get_strategy_archetypes(sid)] does. *)
Theorem get_archetype_of_a_strategy_path_is_the_strategy_request
    (self : ArchetypeClient) (w : world) (sid : Py.str) :
  get_archetype case_table self w (Py.lit "strategy/" ++ sid)
  = get_strategy_archetypes case_table self w sid.
Proof. reflexivity. Qed.

End ReadOperations.

(** ** More on the signer and the constructor *)

Section SignerEdges.

Variable case_table : N -> list N.

(** X13: the parts of the message are joined without escaping, so a [|]
    can be moved between neighbours: the end of the path can be given as
    the start of the timestamp, and a body as the end of the timestamp,
    with the same signature. *)
Theorem separator_is_not_escaped (self : ArchetypeClient)
    (method path moved timestamp : Py.str) (body : option Py.str)
    (c : N) (rest : Py.str) :
  _generate_signature case_table self method (path ++ Py.lit "|" ++ moved)
    timestamp body
  = _generate_signature case_table self method path
      (moved ++ Py.lit "|" ++ timestamp) body
  /\ _generate_signature case_table self method path timestamp (Some (c :: rest))
     = _generate_signature case_table self method path
         (timestamp ++ Py.lit "|" ++ c :: rest) None.
Proof.
  unfold _generate_signature. rewrite !signing_message_flat.
  cbn [nonempty_body].
  split; rewrite ?app_nil_r, <- ?app_assoc; reflexivity.
Qed.

Lemma upper_char_ascii (c : N) :
  (c <? 128) = true ->
  exists c', Py.upper_char case_table c = [c'] /\ (c' <? 128) = true
             /\ Py.upper_char case_table c' = [c'].
Proof.
  intros Hc. unfold Py.upper_char. rewrite Hc.
  destruct ((97 <=? c) && (c <=? 122)) eqn:E.
  - apply andb_prop in E as [E1 E2]. apply N.leb_le in E1, E2. apply N.ltb_lt in Hc.
    exists (c - 32). split; [reflexivity|].
    assert ((c - 32 <? 128) = true) as -> by (apply N.ltb_lt; lia).
    split; [reflexivity|].
    assert ((97 <=? c - 32) = false) as -> by (apply N.leb_gt; lia).
    reflexivity.
  - exists c. rewrite Hc, E. auto.
Qed.

Lemma upper_ascii_idempotent (s : Py.str) :
  Format.ascii s = true ->
  Py.upper case_table (Py.upper case_table s) = Py.upper case_table s.
Proof.
  unfold Py.upper. induction s as [|c s IH]; [reflexivity|].
  cbn [Format.ascii forallb flat_map]. intros H. apply andb_prop in H as [Hc Hs].
  destruct (upper_char_ascii c Hc) as (c' & -> & _ & E).
  cbn [app flat_map]. rewrite E. cbn [app]. f_equal. now apply IH.
Qed.

(** X14: an ASCII method is signed as its uppercase form, so the signature
    does not depend on the letter case of the method. *)
Theorem ascii_method_is_signed_in_upper_case (self : ArchetypeClient)
    (method path timestamp : Py.str) (body : option Py.str) :
  Format.ascii method = true ->
  _generate_signature case_table self (Py.upper case_table method) path timestamp body
  = _generate_signature case_table self method path timestamp body.
Proof.
  intros H. unfold _generate_signature, signing_message.
  now rewrite (upper_ascii_idempotent _ H).
Qed.

Lemma block_key_trailing_zeros (key : Py.bytes) (k : nat) :
  (length key + k <= Hmac.block_size)%nat ->
  Hmac.block_key (key ++ repeat 0 k) = Hmac.block_key key.
Proof.
  unfold Hmac.block_key, Hmac.block_size. intros H.
  rewrite !length_app, !repeat_length.
  assert ((64 <? length key + k)%nat = false) as -> by (apply Nat.ltb_ge; lia).
  assert ((64 <? length key)%nat = false) as -> by (apply Nat.ltb_ge; lia).
  rewrite <- app_assoc, <- repeat_app, ?length_app, ?repeat_length.
  now replace (k + (64 - (length key + k)))%nat with (64 - length key)%nat by lia.
Qed.

Lemma encode_utf8_zeros (k : nat) : Py.encode_utf8 (repeat 0 k) = Some (repeat 0 k).
Proof. induction k as [|k IH]; [reflexivity|]. cbn. now rewrite IH. Qed.

(** X15: NUL characters at the end of a secret of at most 64 bytes do not
    count: the secret and the secret followed by NULs, up to 64 bytes in
    all, give the same signature for every message. *)
Theorem trailing_nul_in_the_secret_is_not_signed
    (self1 self2 : ArchetypeClient) (key : Py.bytes) (k : nat)
    (method path timestamp : Py.str) (body : option Py.str) :
  Py.encode_utf8 self1.(api_secret) = Some key ->
  (length key + k <= 64)%nat ->
  self2.(api_secret) = self1.(api_secret) ++ repeat 0 k ->
  _generate_signature case_table self2 method path timestamp body
  = _generate_signature case_table self1 method path timestamp body.
Proof.
  intros Hk Hlen E. unfold _generate_signature.
  rewrite E, encode_utf8_app, Hk, encode_utf8_zeros.
  destruct (Py.encode_utf8 (signing_message case_table method path timestamp body))
    as [msg|]; [|reflexivity].
  unfold Hmac.hexdigest, Hmac.digest.
  now rewrite (block_key_trailing_zeros key k Hlen).
Qed.

Lemma rstrip_idempotent (c : N) (s : Py.str) :
  Py.rstrip c (Py.rstrip c s) = Py.rstrip c s.
Proof. apply rstrip_fixed, rstrip_no_trailing. Qed.

Lemma rstrip_all (c : N) (n : nat) : Py.rstrip c (repeat c n) = [].
Proof.
  induction n as [|n IH]; [reflexivity|].
  cbn [repeat Py.rstrip]. now rewrite IH, N.eqb_refl.
Qed.

Lemma rstrip_more (c : N) (s : Py.str) (n : nat) :
  Py.rstrip c (s ++ repeat c n) = Py.rstrip c s.
Proof.
  induction s as [|x s IH]; [apply rstrip_all|].
  cbn [app Py.rstrip]. now rewrite IH.
Qed.

(** X16: the constructor's normalisation of the base URL does not see how
    many slashes the URL ends in, is idempotent, and leaves nothing of a
    URL made of slashes alone; the other three arguments are stored as
    given. *)
Theorem init_normalisation (base_url0 api_key0 api_secret0 : Py.str)
    (timeout0 : Z) (n : nat) :
  __init__ (base_url0 ++ repeat 47 n) api_key0 api_secret0 timeout0
  = __init__ base_url0 api_key0 api_secret0 timeout0
  /\ __init__ (__init__ base_url0 api_key0 api_secret0 timeout0).(base_url)
              api_key0 api_secret0 timeout0
     = __init__ base_url0 api_key0 api_secret0 timeout0
  /\ (__init__ (repeat 47 n) api_key0 api_secret0 timeout0).(base_url) = []
  /\ (__init__ base_url0 api_key0 api_secret0 timeout0).(api_key) = api_key0
  /\ (__init__ base_url0 api_key0 api_secret0 timeout0).(api_secret) = api_secret0
  /\ (__init__ base_url0 api_key0 api_secret0 timeout0).(timeout) = timeout0.
Proof.
  unfold __init__. cbn [base_url api_key api_secret timeout].
  rewrite rstrip_more, rstrip_idempotent, rstrip_all. repeat split.
Qed.

End SignerEdges.

(** ** How the errors print *)

(** From [Raise (ApiError e) = Raise (ApiError x)], replace [e] by [x]
    without computing inside [x]. *)
Ltac take_error H :=
  match type of H with
  | Raise (ApiError ?e) = Raise (ApiError ?x) =>
      let E := fresh "E" in
      assert (e = x) as E by congruence; clear H; subst e
  end.

Section ErrorText.

Variable case_table : N -> list N.
Variable printable : N -> bool.

(** X17: the error of an error response whose [errmsg] is a string and
    whose [errorcode] is an integer prints as [[status] Error code: errmsg],
    except that the error code 0 is not printed: it prints as
    [[status] errmsg], like an error without a code. *)
Theorem error_code_zero_is_not_printed
    (self : ArchetypeClient) (w : world) (method path : Py.str)
    (params json_data : option Json.dict)
    (request : Requests.Request) (response : Requests.Response)
    (error_data : Json.dict) (errmsg : Py.str) (errorcode : Z) :
  prepare case_table self w.(clock) method path params json_data = Return request ->
  w.(network) request = Requests.Responded response ->
  (400 <= response.(Requests.status_code))%Z ->
  response.(Requests.status_code) <> 401%Z ->
  response.(Requests.content) <> [] ->
  response.(Requests.json_body) = Requests.Parsed (Json.Obj error_data) ->
  Json.lookup error_data (Py.lit "errmsg") = Some (Json.Str errmsg) ->
  Json.lookup error_data (Py.lit "errorcode") = Some (Json.Int errorcode) ->
  exists e,
    _make_request case_table self w method path params json_data = Raise (ApiError e)
    /\ Format.__str__ printable e
       = if (errorcode =? 0)%Z then
           Py.lit "[" ++ Py.str_of_int response.(Requests.status_code) ++ Py.lit "] "
           ++ errmsg
         else
           Py.lit "[" ++ Py.str_of_int response.(Requests.status_code)
           ++ Py.lit "] Error " ++ Py.str_of_int errorcode ++ Py.lit ": " ++ errmsg.
Proof.
  intros Hp Hn Hge Hne Hc Hbody Hmsg Hcode.
  rewrite (make_request_responded _ _ _ _ _ _ _ _ _ Hp Hn). unfold handle.
  destruct (Z.eqb_spec response.(Requests.status_code) 401) as [|_]; [contradiction|].
  destruct (Z.leb_spec 400 response.(Requests.status_code)) as [_|]; [|lia].
  destruct response.(Requests.content); [contradiction|].
  rewrite Hbody, !get_lookup, Hmsg, Hcode.
  eexists. split; [reflexivity|].
  unfold Format.__str__.
  cbn [error_code status_code message ArchetypeAPIError
       Format.truthy Format.str_of Format.repr].
  now destruct (errorcode =? 0)%Z.
Qed.

(** X18: the errors [_make_request] raises for a 401 and for a failed
    request carry no error code, so they print as the status code in
    brackets and the message: [[401] Authentication failed: Invalid API key
    or signature] and [[0] Request failed: ...]. *)
Theorem authentication_and_transport_errors_print_without_code
    (self : ArchetypeClient) (w : world) (method path : Py.str)
    (params json_data : option Json.dict) (e : api_error) :
  _make_request case_table self w method path params json_data = Raise (ApiError e) ->
  (e.(status_code) = 401%Z ->
   e.(class) = ClassAuthenticationError
   /\ Format.__str__ printable e
      = Py.lit "[401] Authentication failed: Invalid API key or signature")
  /\ (e.(status_code) = 0%Z ->
      exists description,
        e.(message) = Json.Str (Py.lit "Request failed: " ++ description)
        /\ Format.__str__ printable e = Py.lit "[0] Request failed: " ++ description).
Proof.
  assert (forall d : Py.str,
            (0%Z = 401%Z ->
             ClassArchetypeAPIError = ClassAuthenticationError
             /\ Format.__str__ printable
                  (ArchetypeAPIError (Json.Str (Py.lit "Request failed: " ++ d))
                                     0 Json.Null)
                = Py.lit "[401] Authentication failed: Invalid API key or signature")
            /\ (0%Z = 0%Z ->
                exists description,
                  Json.Str (Py.lit "Request failed: " ++ d)
                  = Json.Str (Py.lit "Request failed: " ++ description)
                  /\ Format.__str__ printable
                       (ArchetypeAPIError (Json.Str (Py.lit "Request failed: " ++ d))
                                          0 Json.Null)
                     = Py.lit "[0] Request failed: " ++ description)) as Hfailed.
  { intros d. split; [discriminate|]. intros _. exists d. split; reflexivity. }
  intros H. apply make_request_inv in H.
  destruct H as [(e' & Hp & H)|(request & Hp & [(d & _ & H)|(response & Hn & H)])].
  - apply prepare_raises_UnicodeEncodeError in Hp. congruence.
  - unfold request_failed in H. take_error H. apply Hfailed.
  - unfold handle, request_failed in H.
    destruct (Z.eqb_spec response.(Requests.status_code) 401) as [E401|N401].
    { take_error H. split; [intros _; split; reflexivity|discriminate]. }
    destruct (Z.leb_spec 400 response.(Requests.status_code)) as [Hge|Hlt].
    + assert (forall d : Json.dict,
                e.(status_code) = response.(Requests.status_code) ->
                (e.(status_code) = 401%Z ->
                 e.(class) = ClassAuthenticationError
                 /\ Format.__str__ printable e
                    = Py.lit "[401] Authentication failed: Invalid API key or signature")
                /\ (e.(status_code) = 0%Z ->
                    exists description,
                      e.(message) = Json.Str (Py.lit "Request failed: " ++ description)
                      /\ Format.__str__ printable e
                         = Py.lit "[0] Request failed: " ++ description)) as Hstatus.
      { intros _ E. rewrite E. split; [contradiction|]. intros E0. lia. }
      destruct response.(Requests.content).
      * take_error H. now apply (Hstatus []).
      * destruct response.(Requests.json_body) as [[| | | | |d0]|d0];
          try discriminate.
        -- take_error H. now apply (Hstatus d0).
        -- take_error H. apply Hfailed.
    + destruct response.(Requests.json_body) as [v|d0]; [discriminate|].
      take_error H. apply Hfailed.
Qed.

End ErrorText.

(** ** Instances of the further properties *)


Lemma returned_value_is_the_decoded_body_of_a_success_witness :
  _make_request Py.no_case Sample.client Sample2.ok (Py.lit "GET") (Py.lit "/x")
    None None = Return Sample2.archepids
  /\ exists request response,
       prepare Py.no_case Sample.client Sample2.ok.(clock) (Py.lit "GET")
         (Py.lit "/x") None None = Return request
       /\ Sample2.ok.(network) request = Requests.Responded response
       /\ (response.(Requests.status_code) < 400)%Z
       /\ response.(Requests.json_body) = Requests.Parsed Sample2.archepids.
Proof.
  assert (_make_request Py.no_case Sample.client Sample2.ok (Py.lit "GET")
            (Py.lit "/x") None None = Return Sample2.archepids) as H
    by (vm_compute; reflexivity).
  split; [exact H|].
  exact (returned_value_is_the_decoded_body_of_a_success Py.no_case Sample.client
           Sample2.ok (Py.lit "GET") (Py.lit "/x") None None Sample2.archepids H).
Defined.

Lemma raised_errors_are_of_three_kinds_witness :
  _make_request Py.no_case Sample.client (Sample2.answer Sample2.busy_response)
    (Py.lit "GET") (Py.lit "/x") None None
  = Raise (ApiError (ArchetypeAPIError (Json.Str (Py.lit "busy")) 503 (Json.Int 0)))
  /\ (400 <= 503)%Z /\ 503%Z <> 401%Z.
Proof.
  assert (_make_request Py.no_case Sample.client (Sample2.answer Sample2.busy_response)
            (Py.lit "GET") (Py.lit "/x") None None
          = Raise (ApiError
              (ArchetypeAPIError (Json.Str (Py.lit "busy")) 503 (Json.Int 0)))) as H
    by (vm_compute; reflexivity).
  split; [exact H|].
  destruct (raised_errors_are_of_three_kinds Py.no_case Sample.client
              (Sample2.answer Sample2.busy_response) (Py.lit "GET") (Py.lit "/x")
              None None _ H) as [(E & _)|[(d & E)|(_ & Hge & Hne & _)]].
  - discriminate E.
  - discriminate E.
  - exact (conj Hge Hne).
Defined.

Lemma success_response_returns_its_decoded_body_witness :
  prepare Py.no_case Sample.client Sample2.ok.(clock) (Py.lit "GET") (Py.lit "/x")
    None None = Return Sample.get_x
  /\ _make_request Py.no_case Sample.client Sample2.ok (Py.lit "GET") (Py.lit "/x")
       None None = Return Sample2.archepids.
Proof.
  assert (prepare Py.no_case Sample.client 1700000000 (Py.lit "GET") (Py.lit "/x")
            None None = Return Sample.get_x) as Hp by (vm_compute; reflexivity).
  split; [exact Hp|].
  apply (success_response_returns_its_decoded_body Py.no_case Sample.client
           Sample2.ok (Py.lit "GET") (Py.lit "/x") None None Sample.get_x
           Sample2.ok_response Sample2.archepids);
    [exact Hp|reflexivity|reflexivity|reflexivity].
Defined.

Lemma transport_failure_has_status_code_0_witness :
  prepare Py.no_case Sample.client Sample2.down.(clock) (Py.lit "GET") (Py.lit "/x")
    None None = Return Sample.get_x
  /\ _make_request Py.no_case Sample.client Sample2.down (Py.lit "GET") (Py.lit "/x")
       None None
     = Raise (ApiError
         {| class := ClassArchetypeAPIError;
            message := Json.Str (Py.lit "Request failed: " ++ Sample2.refused);
            status_code := 0;
            error_code := Json.Null |}).
Proof.
  assert (prepare Py.no_case Sample.client 1700000000 (Py.lit "GET") (Py.lit "/x")
            None None = Return Sample.get_x) as Hp by (vm_compute; reflexivity).
  split; [exact Hp|].
  apply (transport_failure_has_status_code_0 Py.no_case Sample.client Sample2.down
           (Py.lit "GET") (Py.lit "/x") None None Sample.get_x Sample2.refused);
    [exact Hp|reflexivity].
Defined.

Lemma body_that_is_not_json_has_status_code_0_witness :
  prepare Py.no_case Sample.client (Sample2.answer Sample2.html_response).(clock)
    (Py.lit "GET") (Py.lit "/x") None None = Return Sample.get_x
  /\ _make_request Py.no_case Sample.client (Sample2.answer Sample2.html_response)
       (Py.lit "GET") (Py.lit "/x") None None
     = Raise (ApiError
         {| class := ClassArchetypeAPIError;
            message := Json.Str (Py.lit "Request failed: " ++ Sample.no_json);
            status_code := 0;
            error_code := Json.Null |}).
Proof.
  assert (prepare Py.no_case Sample.client 1700000000 (Py.lit "GET") (Py.lit "/x")
            None None = Return Sample.get_x) as Hp by (vm_compute; reflexivity).
  split; [exact Hp|].
  apply (body_that_is_not_json_has_status_code_0 Py.no_case Sample.client
           (Sample2.answer Sample2.html_response) (Py.lit "GET") (Py.lit "/x")
           None None Sample.get_x Sample2.html_response Sample.no_json);
    [exact Hp|reflexivity|discriminate|right; discriminate|reflexivity].
Defined.

Lemma error_body_that_is_no_object_raises_AttributeError_witness :
  prepare Py.no_case Sample.client (Sample2.answer Sample2.list_response).(clock)
    (Py.lit "GET") (Py.lit "/x") None None = Return Sample.get_x
  /\ _make_request Py.no_case Sample.client (Sample2.answer Sample2.list_response)
       (Py.lit "GET") (Py.lit "/x") None None = Raise AttributeError.
Proof.
  assert (prepare Py.no_case Sample.client 1700000000 (Py.lit "GET") (Py.lit "/x")
            None None = Return Sample.get_x) as Hp by (vm_compute; reflexivity).
  split; [exact Hp|].
  apply (error_body_that_is_no_object_raises_AttributeError Py.no_case Sample.client
           (Sample2.answer Sample2.list_response) (Py.lit "GET") (Py.lit "/x")
           None None Sample.get_x Sample2.list_response (Json.Arr []));
    [exact Hp|reflexivity|discriminate|discriminate|discriminate|reflexivity
    |discriminate].
Defined.

Lemma headers_carry_the_signed_timestamp_witness :
  _get_headers Py.no_case Sample.client 1700000000 (Py.lit "GET") (Py.lit "/x") None
  = Return Sample.get_x.(Requests.headers)
  /\ Requests.header (Py.lit "X-Timestamp") Sample.get_x.(Requests.headers)
     = Some Sample.timestamp
  /\ exists timestamp signature,
       Requests.header (Py.lit "X-Timestamp") Sample.get_x.(Requests.headers)
       = Some timestamp
       /\ Requests.header (Py.lit "X-Signature") Sample.get_x.(Requests.headers)
          = Some signature
       /\ timestamp = Py.str_of_int 1700000000
       /\ Format.printable_ascii timestamp = true
       /\ claimed_signature Py.no_case Sample.client.(api_secret) (Py.lit "GET")
            (Py.lit "/x") timestamp (nonempty_body None) = Return signature.
Proof.
  assert (_get_headers Py.no_case Sample.client 1700000000 (Py.lit "GET")
            (Py.lit "/x") None = Return Sample.get_x.(Requests.headers)) as H
    by (vm_compute; reflexivity).
  split; [exact H|]. split; [reflexivity|].
  apply (headers_carry_the_signed_timestamp Py.no_case Sample.client 1700000000
           (Py.lit "GET") (Py.lit "/x") None _ H).
Defined.

Lemma get_strategy_archetypes_returns_the_decoded_body_witness :
  Py.encode_utf8 Sample.client.(api_secret) = Some (Py.lit "s3cret")
  /\ Py.encode_utf8 (Py.lit "A052") = Some (Py.lit "A052")
  /\ get_strategy_archetypes Py.no_case Sample.client Sample2.ok (Py.lit "A052")
     = Return Sample2.archepids.
Proof.
  split; [reflexivity|]. split; [reflexivity|].
  apply (get_strategy_archetypes_returns_the_decoded_body Py.no_case Sample.client
           Sample2.ok (Py.lit "A052") (Py.lit "s3cret") (Py.lit "A052")
           Sample2.ok_response Sample2.archepids); reflexivity.
Defined.

Lemma get_archetype_returns_the_decoded_body_witness :
  Py.encode_utf8 Sample.client.(api_secret) = Some (Py.lit "s3cret")
  /\ Py.encode_utf8 (Py.lit "A052071812-7a9581c6") = Some (Py.lit "A052071812-7a9581c6")
  /\ get_archetype Py.no_case Sample.client Sample2.ok (Py.lit "A052071812-7a9581c6")
     = Return Sample2.archepids.
Proof.
  split; [reflexivity|]. split; [reflexivity|].
  apply (get_archetype_returns_the_decoded_body Py.no_case Sample.client
           Sample2.ok (Py.lit "A052071812-7a9581c6") (Py.lit "s3cret")
           (Py.lit "A052071812-7a9581c6") Sample2.ok_response Sample2.archepids);
    reflexivity.
Defined.

Lemma ascii_method_is_signed_in_upper_case_witness :
  Format.ascii (Py.lit "get") = true
  /\ _generate_signature Py.no_case Sample.client (Py.upper Py.no_case (Py.lit "get"))
       (Py.lit "/p") Sample.timestamp None
     = _generate_signature Py.no_case Sample.client (Py.lit "get")
         (Py.lit "/p") Sample.timestamp None.
Proof.
  split; [reflexivity|].
  apply (ascii_method_is_signed_in_upper_case Py.no_case Sample.client (Py.lit "get")
           (Py.lit "/p") Sample.timestamp None).
  reflexivity.
Defined.

Lemma trailing_nul_in_the_secret_is_not_signed_witness :
  Py.encode_utf8 Sample.client.(api_secret) = Some (Py.lit "s3cret")
  /\ (length (Py.lit "s3cret") + 2 <= 64)%nat
  /\ (__init__ [] [] (Py.lit "s3cret" ++ [0; 0]) 30).(api_secret)
     = Sample.client.(api_secret) ++ repeat 0 2
  /\ _generate_signature Py.no_case (__init__ [] [] (Py.lit "s3cret" ++ [0; 0]) 30)
       (Py.lit "GET") (Py.lit "/p") Sample.timestamp None
     = _generate_signature Py.no_case Sample.client
         (Py.lit "GET") (Py.lit "/p") Sample.timestamp None.
Proof.
  split; [reflexivity|]. split; [cbn; lia|]. split; [reflexivity|].
  apply (trailing_nul_in_the_secret_is_not_signed Py.no_case Sample.client
           (__init__ [] [] (Py.lit "s3cret" ++ [0; 0]) 30) (Py.lit "s3cret") 2
           (Py.lit "GET") (Py.lit "/p") Sample.timestamp None);
    [reflexivity|cbn; lia|reflexivity].
Defined.

Lemma error_code_zero_is_not_printed_witness :
  prepare Py.no_case Sample.client (Sample2.answer Sample2.busy_response).(clock)
    (Py.lit "GET") (Py.lit "/x") None None = Return Sample.get_x
  /\ exists e,
       _make_request Py.no_case Sample.client (Sample2.answer Sample2.busy_response)
         (Py.lit "GET") (Py.lit "/x") None None = Raise (ApiError e)
       /\ Format.__str__ Format.ascii_only e
          = if (0 =? 0)%Z then
              Py.lit "[" ++ Py.str_of_int 503 ++ Py.lit "] " ++ Py.lit "busy"
            else
              Py.lit "[" ++ Py.str_of_int 503 ++ Py.lit "] Error "
              ++ Py.str_of_int 0 ++ Py.lit ": " ++ Py.lit "busy".
Proof.
  assert (prepare Py.no_case Sample.client 1700000000 (Py.lit "GET") (Py.lit "/x")
            None None = Return Sample.get_x) as Hp by (vm_compute; reflexivity).
  split; [exact Hp|].
  apply (error_code_zero_is_not_printed Py.no_case Format.ascii_only Sample.client
           (Sample2.answer Sample2.busy_response) (Py.lit "GET") (Py.lit "/x")
           None None Sample.get_x Sample2.busy_response Sample2.busy
           (Py.lit "busy") 0);
    [exact Hp|reflexivity|discriminate|discriminate|discriminate|reflexivity
    |reflexivity|reflexivity].
Defined.

Lemma authentication_and_transport_errors_print_without_code_witness :
  _make_request Py.no_case Sample.client Sample2.down (Py.lit "GET") (Py.lit "/x")
    None None
  = Raise (ApiError
      (ArchetypeAPIError (Json.Str (Py.lit "Request failed: " ++ Sample2.refused))
                         0 Json.Null))
  /\ exists description,
       Json.Str (Py.lit "Request failed: " ++ Sample2.refused)
       = Json.Str (Py.lit "Request failed: " ++ description)
       /\ Format.__str__ Format.ascii_only
            (ArchetypeAPIError (Json.Str (Py.lit "Request failed: " ++ Sample2.refused))
                               0 Json.Null)
          = Py.lit "[0] Request failed: " ++ description.
Proof.
  assert (_make_request Py.no_case Sample.client Sample2.down (Py.lit "GET")
            (Py.lit "/x") None None
          = Raise (ApiError
              (ArchetypeAPIError
                 (Json.Str (Py.lit "Request failed: " ++ Sample2.refused))
                 0 Json.Null))) as H by (vm_compute; reflexivity).
  split; [exact H|].
  exact (proj2 (authentication_and_transport_errors_print_without_code Py.no_case
                  Format.ascii_only Sample.client Sample2.down (Py.lit "GET")
                  (Py.lit "/x") None None _ H) eq_refl).
Defined.

(** ** The signed text and the data it encodes *)

Lemma insert_item_perm {A : Type} (a : Py.str * A) (l : list (Py.str * A)) :
  Permutation (Json.insert_item a l) (a :: l).
Proof.
  induction l as [|x l IH]; cbn [Json.insert_item]; [reflexivity|].
  destruct (Py.str_leb (fst a) (fst x)); [reflexivity|].
  rewrite IH. apply perm_swap.
Qed.

Lemma sort_items_permutation {A : Type} (l : list (Py.str * A)) :
  Permutation (Json.sort_items l) l.
Proof.
  induction l as [|x l IH]; [constructor|].
  rewrite sort_items_cons, insert_item_perm. now constructor.
Qed.

Lemma insert_item_ascending {A : Type} (a : Py.str * A) (l : list (Py.str * A)) :
  Json.keys_ascending (map fst l) = true ->
  Json.keys_ascending (map fst (Json.insert_item a l)) = true.
Proof.
  induction l as [|x l IH]; [reflexivity|].
  cbn [map Json.keys_ascending Json.insert_item]. intros H.
  apply andb_prop in H as [Hx Hl].
  destruct (Py.str_leb (fst a) (fst x)) eqn:E.
  - cbn [map Json.keys_ascending]. now rewrite E, Hx, Hl.
  - cbn [map Json.keys_ascending]. rewrite (IH Hl), andb_true_r.
    destruct l as [|y l]; cbn [Json.insert_item map].
    + destruct (str_leb_total (fst a) (fst x)); congruence.
    + destruct (Py.str_leb (fst a) (fst y)); cbn [map].
      * destruct (str_leb_total (fst a) (fst x)); congruence.
      * exact Hx.
Qed.

Lemma sort_items_ascending_keys {A : Type} (l : list (Py.str * A)) :
  Json.keys_ascending (map fst (Json.sort_items l)) = true.
Proof.
  induction l as [|x l IH]; [reflexivity|].
  rewrite sort_items_cons. now apply insert_item_ascending.
Qed.

Lemma canonical_obj (members : Json.dict) :
  Canonical.canonical (Json.Obj members)
  = Json.Obj (Json.sort_items
                (map (fun kv => (fst kv, Canonical.canonical (snd kv))) members)).
Proof.
  cbn [Canonical.canonical]. do 2 f_equal. apply map_ext. now intros [k x].
Qed.

Lemma canonical_key_sorted (v : Json.value) :
  Json.key_sorted (Canonical.canonical v) = true.
Proof.
  induction v as [|b|n|s|items IH|members IH] using value_ind_deep;
    try reflexivity.
  - cbn [Canonical.canonical Json.key_sorted]. rewrite forallb_forall.
    intros x Hx. apply in_map_iff in Hx as (y & <- & Hy).
    rewrite Forall_forall in IH. now apply IH.
  - rewrite canonical_obj. cbn [Json.key_sorted].
    rewrite sort_items_ascending_keys. cbn [andb].
    rewrite forallb_forall. apply Forall_forall, sort_items_Forall, Forall_map.
    eapply Forall_impl; [|exact IH]. now intros [k x].
Qed.

Lemma canonical_same_mapping (v : Json.value) :
  Json.same_mapping v (Canonical.canonical v).
Proof.
  induction v as [|b|n|s|items IH|members IH] using value_ind_deep;
    [constructor|constructor|constructor|constructor| |].
  - cbn [Canonical.canonical]. constructor.
    induction IH as [|x xs Hx _ IHxs]; cbn [map]; constructor; assumption.
  - rewrite canonical_obj.
    apply Json.SameObj with
      (reordered := map (fun kv => (fst kv, Canonical.canonical (snd kv))) members).
    + apply sort_items_permutation.
    + induction IH as [|x xs Hx _ IHxs]; cbn [map]; constructor; [|assumption].
      now split.
Qed.

Lemma canonical_dumps (v : Json.value) :
  Json.dumps false (Canonical.canonical v) = Json.dumps true v.
Proof.
  induction v as [|b|n|s|items IH|members IH] using value_ind_deep;
    try reflexivity.
  - cbn [Canonical.canonical Json.dumps]. do 3 f_equal. rewrite map_map.
    induction IH as [|x xs Hx _ IHxs]; [reflexivity|].
    cbn [map]. now rewrite Hx, IHxs.
  - rewrite canonical_obj, !dumps_obj_rendered. cbv zeta.
    rewrite <- (sort_items_map (Json.dumps false)), map_map. cbn [fst snd].
    assert (map (fun kv : Py.str * Json.value =>
                   (fst kv, Json.dumps false (Canonical.canonical (snd kv)))) members
            = map (fun kv => (fst kv, Json.dumps true (snd kv))) members) as ->;
      [|reflexivity].
    apply map_ext_Forall. eapply Forall_impl; [|exact IH].
    intros kv Hkv. now rewrite Hkv.
Qed.

(** X19: the text that is signed for a JSON body is the plain encoding of
    the same mapping with the keys of every dict put in ascending order:
    decoding the signed text gives back the data that is sent. *)
Theorem signed_text_encodes_the_same_mapping (d : Json.dict) :
  d <> [] ->
  body_str (Some d) = Some (Json.dumps false (Canonical.canonical (Json.Obj d)))
  /\ Json.same_mapping (Json.Obj d) (Canonical.canonical (Json.Obj d))
  /\ Json.key_sorted (Canonical.canonical (Json.Obj d)) = true.
Proof.
  intros Hd. split; [|split].
  - rewrite canonical_dumps. now destruct d.
  - apply canonical_same_mapping.
  - apply canonical_key_sorted.
Qed.

Lemma signed_text_encodes_the_same_mapping_witness :
  Sample.b_then_a <> []
  /\ body_str (Some Sample.b_then_a)
     = Some (Json.dumps false (Canonical.canonical (Json.Obj Sample.b_then_a)))
  /\ Json.same_mapping (Json.Obj Sample.b_then_a)
       (Canonical.canonical (Json.Obj Sample.b_then_a))
  /\ Json.key_sorted (Canonical.canonical (Json.Obj Sample.b_then_a)) = true.
Proof.
  split; [discriminate|].
  apply (signed_text_encodes_the_same_mapping Sample.b_then_a). discriminate.
Defined.

Example canonical_b_then_a :
  Canonical.canonical (Json.Obj Sample.b_then_a) = Json.Obj Sample.a_then_b.
Proof. reflexivity. Qed.
